(** * voice-copilot: session orchestration, embedded and verified

    A shallow embedding of the orchestration code of the voice
    transcriber (package [voice_transcriber]): the hotkey chord detector,
    the audio recorder, the lazily loaded transcription model, the
    text-to-speech front end and the service that wires them together.

    Conventions of the embedding.
    - A Python [str] is the list of its code points ([pystr]); [len] is
      [length].  [str.lower] and [str.isspace] belong to the Python
      runtime and are taken through the class [PyRuntime].
    - A clock reading ([time.time()], seconds as a float) is a rational
      number; every function that reads the clock takes the value read
      as an argument.
    - A call into an external library (whisper, sounddevice, pygame, the
      clipboard) is represented by its outcome, passed as an argument:
      [Some v] when it returns [v], [None] when it raises.
    - Code run for its effect on the outside world (a thread started, a
      notification shown, the mixer stopped) is recorded in the list of
      effects a function returns next to the new state. *)

From Stdlib Require Import QArith Lqa Ascii String.
From stdpp Require Import gmap strings list.

Local Open Scope bool_scope.

(** ** Python strings and truthiness *)

Abbreviation pystr := (list N).

(** An ASCII literal as a Python string. *)
Definition py (s : string) : pystr :=
  (fun a => N_of_ascii a) <$> list_ascii_of_string s.

(** [if x:] on a string: the empty string is falsy. *)
Definition truthy {A} (s : list A) : bool :=
  match s with [] => false | _ :: _ => true end.

(** [if x:] on an [Optional[str]]. *)
Definition truthy_opt {A} (o : option (list A)) : bool :=
  match o with Some s => truthy s | None => false end.

Class PyRuntime := {
  str_lower : pystr -> pystr;
  chr_isspace : N -> bool
}.

(** A runtime for the ASCII range, used to run the model on examples:
    [A]..[Z] are lowered, the whitespace characters are those of
    [str.isspace]. *)
Definition ascii_lower (c : N) : N :=
  if (65 <=? c)%N && (c <=? 90)%N then (c + 32)%N else c.

Definition unicode_space (c : N) : bool :=
  ((9 <=? c) && (c <=? 13) || (28 <=? c) && (c <=? 32) || (c =? 133)
   || (c =? 160) || (c =? 5760) || (8192 <=? c) && (c <=? 8202)
   || (c =? 8232) || (c =? 8233) || (c =? 8239) || (c =? 8287)
   || (c =? 12288))%N.

Definition ascii_runtime : PyRuntime :=
  {| str_lower := fun s => ascii_lower <$> s; chr_isspace := unicode_space |}.

(** ** Clock readings *)

Definition Qltb (a b : Q) : bool := negb (Qle_bool b a).

(** ** Effects on the outside world *)

Inductive Effect :=
| StartRecordingThread                       (* Thread(target=_record_audio).start() *)
| JoinRecordingThread                        (* recording_thread.join(timeout=1.0) *)
| WriteWav (filename : pystr) (rate : Z) (audio : list Q)
| SaveRecordingCopy (audio : list Q)
| StartProcessingThread (audio_file : pystr) (* Thread(target=_process_audio) *)
| StartTtsThread                             (* Thread(target=_process_tts) *)
| StartSpeechThread (text : pystr)           (* Thread(target=_speech_worker) *)
| JoinSpeechThread                           (* speech_thread.join(timeout=1.0) *)
| MixerStop                                  (* pygame.mixer.music.stop() *)
| Unlink (file : pystr)                      (* os.unlink *)
| TypeText (text : pystr)                    (* TextInserter.insert_text *)
| TraySetRecording (recording : bool)
| TrayStop
| Notify (title message : pystr).

(** ** config.py *)

Module Config.

Record Config := {
  sample_rate : Z;
  channels : Z;
  chunk_size : Z;
  model_name : pystr;
  hotkey : list pystr;
  tts_hotkey : list pystr;
  show_system_tray : bool;
  show_notifications : bool;
  min_recording_duration : Q;
  max_recording_duration : Q;
  debug : bool;
  save_recordings : bool
}.

(** The global [config = Config()]. *)
Definition config : Config := {|
  sample_rate := 16000;
  channels := 1;
  chunk_size := 1024;
  model_name := py "base";
  hotkey := [py "ctrl"; py "f1"];
  tts_hotkey := [py "ctrl"; py "f2"];
  show_system_tray := true;
  show_notifications := true;
  min_recording_duration := 1 # 2;
  max_recording_duration := 30;
  debug := false;
  save_recordings := false
|}.

End Config.

(** ** hotkey_handler.py *)

Module HotkeyHandler.
Import Config.

(** A key as pynput delivers it: a [KeyCode] carries [char] (possibly
    [None]) and has no [name]; a member of the [Key] enumeration has a
    [name] and no [char]. *)
Inductive Key :=
| KeyCode (char : option pystr)
| SpecialKey (name : pystr).

(** The callbacks registered by [start]; firing one is an output of the
    key handlers. *)
Inductive Callback := OnPress | OnRelease | OnTtsPress.

Record HotkeyHandler := {
  on_press_callback : bool;      (* [is not None] *)
  on_release_callback : bool;
  on_tts_press_callback : bool;
  is_listening : bool;
  pressed_keys : gset pystr;
  state_record : bool;           (* hotkey_states['record'] *)
  state_tts : bool;              (* hotkey_states['tts'] *)
  last_tts_trigger : Q;
  tts_debounce_time : Q
}.

(** [HotkeyHandler.__init__]. *)
Definition init : HotkeyHandler := {|
  on_press_callback := false;
  on_release_callback := false;
  on_tts_press_callback := false;
  is_listening := false;
  pressed_keys := ∅;
  state_record := false;
  state_tts := false;
  last_tts_trigger := 0;
  tts_debounce_time := 1 # 2
|}.

Definition set_pressed_keys (ks : gset pystr) (h : HotkeyHandler) :=
  {| on_press_callback := on_press_callback h;
     on_release_callback := on_release_callback h;
     on_tts_press_callback := on_tts_press_callback h;
     is_listening := is_listening h;
     pressed_keys := ks;
     state_record := state_record h;
     state_tts := state_tts h;
     last_tts_trigger := last_tts_trigger h;
     tts_debounce_time := tts_debounce_time h |}.

Definition set_states (r t : bool) (h : HotkeyHandler) :=
  {| on_press_callback := on_press_callback h;
     on_release_callback := on_release_callback h;
     on_tts_press_callback := on_tts_press_callback h;
     is_listening := is_listening h;
     pressed_keys := pressed_keys h;
     state_record := r;
     state_tts := t;
     last_tts_trigger := last_tts_trigger h;
     tts_debounce_time := tts_debounce_time h |}.

Definition set_last_tts_trigger (t : Q) (h : HotkeyHandler) :=
  {| on_press_callback := on_press_callback h;
     on_release_callback := on_release_callback h;
     on_tts_press_callback := on_tts_press_callback h;
     is_listening := is_listening h;
     pressed_keys := pressed_keys h;
     state_record := state_record h;
     state_tts := state_tts h;
     last_tts_trigger := t;
     tts_debounce_time := tts_debounce_time h |}.

(** [start], given whether the pynput listener could be created. *)
Definition start (listener_ok : bool) (on_tts_press : bool)
    (h : HotkeyHandler) : bool * HotkeyHandler :=
  if is_listening h then (false, h)
  else
    let h1 := {| on_press_callback := true;
                 on_release_callback := true;
                 on_tts_press_callback := on_tts_press;
                 is_listening := listener_ok;
                 pressed_keys := pressed_keys h;
                 state_record := state_record h;
                 state_tts := state_tts h;
                 last_tts_trigger := last_tts_trigger h;
                 tts_debounce_time := tts_debounce_time h |} in
    (listener_ok, h1).

(** [stop]: the set of pressed keys is cleared, the chord states are
    left as they are. *)
Definition stop (h : HotkeyHandler) : HotkeyHandler :=
  {| on_press_callback := on_press_callback h;
     on_release_callback := on_release_callback h;
     on_tts_press_callback := on_tts_press_callback h;
     is_listening := false;
     pressed_keys := ∅;
     state_record := state_record h;
     state_tts := state_tts h;
     last_tts_trigger := last_tts_trigger h;
     tts_debounce_time := tts_debounce_time h |}.

Section WithRuntime.
Context {RT : PyRuntime}.

Definition _get_key_name (key : Key) : option pystr :=
  match key with
  | KeyCode (Some c) => if truthy c then Some (str_lower c) else None
  | KeyCode None => None
  | SpecialKey name =>
      let key_name := str_lower name in
      if bool_decide (key_name = py "ctrl_l") || bool_decide (key_name = py "ctrl_r")
      then Some (py "ctrl")
      else if bool_decide (key_name = py "alt_l") || bool_decide (key_name = py "alt_r")
      then Some (py "alt")
      else if bool_decide (key_name = py "shift_l") || bool_decide (key_name = py "shift_r")
      then Some (py "shift")
      else if bool_decide (key_name = py "cmd_l") || bool_decide (key_name = py "cmd_r")
      then Some (py "cmd")
      else Some key_name
  end.

End WithRuntime.

(** [set(keys).issubset(self.pressed_keys)]. *)
Definition issubset (keys : list pystr) (pressed : gset pystr) : bool :=
  bool_decide (list_to_set keys ⊆ pressed).

Definition _is_record_hotkey_pressed (cfg : Config) (h : HotkeyHandler) : bool :=
  issubset (hotkey cfg) (pressed_keys h).

Definition _is_tts_hotkey_pressed (cfg : Config) (h : HotkeyHandler) : bool :=
  issubset (tts_hotkey cfg) (pressed_keys h).

(** A callback is invoked only when it is registered. *)
Definition fire (registered : bool) (cb : Callback) : list Callback :=
  if registered then [cb] else [].

Section WithRuntime.
Context {RT : PyRuntime}.

(** [_on_key_press]; [now] is what [time.time()] returns in the TTS
    branch. *)
Definition _on_key_press (cfg : Config) (now : Q) (key : Key)
    (h : HotkeyHandler) : HotkeyHandler * list Callback :=
  match _get_key_name key with
  | Some key_name =>
      if truthy key_name then
        let h1 := set_pressed_keys ({[key_name]} ∪ pressed_keys h) h in
        if _is_record_hotkey_pressed cfg h1 && negb (state_record h1) then
          (set_states true (state_tts h1) h1, fire (on_press_callback h1) OnPress)
        else if _is_tts_hotkey_pressed cfg h1 && negb (state_tts h1) then
          let current_time := now in
          if Qltb (tts_debounce_time h1) (current_time - last_tts_trigger h1) then
            (set_last_tts_trigger current_time (set_states (state_record h1) true h1),
             fire (on_tts_press_callback h1) OnTtsPress)
          else (h1, [])
        else (h1, [])
      else (h, [])
  | None => (h, [])
  end.

(** [_on_key_release]. *)
Definition _on_key_release (cfg : Config) (key : Key)
    (h : HotkeyHandler) : HotkeyHandler * list Callback :=
  match _get_key_name key with
  | Some key_name =>
      if truthy key_name then
        let was_record_pressed := state_record h in
        let h1 := set_pressed_keys (pressed_keys h ∖ {[key_name]}) h in
        let h2 := set_states (_is_record_hotkey_pressed cfg h1)
                             (_is_tts_hotkey_pressed cfg h1) h1 in
        if was_record_pressed && negb (state_record h2) then
          (h2, fire (on_release_callback h2) OnRelease)
        else (h2, [])
      else (h, [])
  | None => (h, [])
  end.

(** The serialized stream of key events the listener delivers. *)
Inductive KeyEvent :=
| Press (now : Q) (key : Key)
| Release (key : Key).

Definition handle (cfg : Config) (e : KeyEvent) (h : HotkeyHandler)
    : HotkeyHandler * list Callback :=
  match e with
  | Press now key => _on_key_press cfg now key h
  | Release key => _on_key_release cfg key h
  end.

(** Delivering a sequence of events: the final state and every callback
    fired on the way, in order. *)
Fixpoint run (cfg : Config) (evs : list KeyEvent) (h : HotkeyHandler)
    : HotkeyHandler * list Callback :=
  match evs with
  | [] => (h, [])
  | e :: evs' =>
      let '(h1, out1) := handle cfg e h in
      let '(h2, out2) := run cfg evs' h1 in
      (h2, out1 ++ out2)
  end.

(** The two configured chords, their key tuples, their entries of
    [hotkey_states] and the callbacks their activation invokes. *)
Inductive Chord := RecordChord | TtsChord.

Definition chord_keys (cfg : Config) (c : Chord) : list pystr :=
  match c with RecordChord => hotkey cfg | TtsChord => tts_hotkey cfg end.

Definition chord_state (c : Chord) (h : HotkeyHandler) : bool :=
  match c with RecordChord => state_record h | TtsChord => state_tts h end.

Definition activation (c : Chord) : Callback :=
  match c with RecordChord => OnPress | TtsChord => OnTtsPress end.

(** The event is the release of one of the keys of chord [c]. *)
Definition releases_chord_key (cfg : Config) (c : Chord) (e : KeyEvent) : bool :=
  match e with
  | Release key =>
      match _get_key_name key with
      | Some key_name => bool_decide (key_name ∈ chord_keys cfg c)
      | None => false
      end
  | Press _ _ => false
  end.

End WithRuntime.

(** The chord is held: its state is set and all its keys are pressed. *)
Definition held (cfg : Config) (c : Chord) (h : HotkeyHandler) : Prop :=
  chord_state c h = true /\ issubset (chord_keys cfg c) (pressed_keys h) = true.

(** A listening handler with every callback registered and the given
    keys down. *)
Definition listening (keys : list pystr) : HotkeyHandler :=
  set_pressed_keys (list_to_set keys) (start true true init).2.

End HotkeyHandler.

(** ** Python string methods used by the code *)

Module PyStr.

(** [s.startswith(p)]. *)
Fixpoint startswith (p s : pystr) : bool :=
  match p, s with
  | [], _ => true
  | _ :: _, [] => false
  | a :: p', b :: s' => bool_decide (a = b) && startswith p' s'
  end.

(** [sub in s]. *)
Fixpoint contains (sub s : pystr) : bool :=
  startswith sub s ||
  match s with
  | [] => false
  | _ :: s' => contains sub s'
  end.

(** [s.replace(old, new)] for a non-empty [old]: occurrences are taken
    left to right and do not overlap.  [skip] counts the characters of a
    matched occurrence still to be dropped. *)
Fixpoint replace_from (old new : pystr) (skip : nat) (s : pystr) : pystr :=
  match s with
  | [] => []
  | c :: s' =>
      match skip with
      | S k => replace_from old new k s'
      | O =>
          if startswith old s
          then new ++ replace_from old new (length old - 1) s'
          else c :: replace_from old new 0 s'
      end
  end.

Definition replace (old new s : pystr) : pystr :=
  match old with
  | [] => new ++ concat ((fun c => c :: new) <$> s)
  | _ :: _ => replace_from old new 0 s
  end.

(** [sep.join(parts)]. *)
Fixpoint join (sep : pystr) (parts : list pystr) : pystr :=
  match parts with
  | [] => []
  | [p] => p
  | p :: ps => p ++ sep ++ join sep ps
  end.

Section WithRuntime.
Context {RT : PyRuntime}.

(** [s.split()]: the maximal runs of non-whitespace characters; [cur]
    holds the run being read, last character first. *)
Fixpoint split_from (cur : pystr) (s : pystr) : list pystr :=
  match s with
  | [] => if truthy cur then [rev cur] else []
  | c :: s' =>
      if chr_isspace c
      then (if truthy cur then rev cur :: split_from [] s' else split_from [] s')
      else split_from (c :: cur) s'
  end.

Definition split (s : pystr) : list pystr := split_from [] s.

Fixpoint lstrip (s : pystr) : pystr :=
  match s with
  | c :: s' => if chr_isspace c then lstrip s' else s
  | [] => []
  end.

(** [s.strip()]. *)
Definition strip (s : pystr) : pystr := rev (lstrip (rev (lstrip s))).

End WithRuntime.

End PyStr.

(** ** audio_recorder.py *)

Module AudioRecorder.
Import Config.

(** A block of samples handed to the stream callback. *)
Abbreviation Frame := (list Q).

(** Where the thread running [_record_audio] stands: not created, created
    and not yet inside [with sd.InputStream(...)], inside it (the only
    phase in which sounddevice invokes the callback), or past it. *)
Inductive RecordingThread := NoThread | Started | InStream | Exited.

Record AudioRecorder := {
  is_recording : bool;
  audio_data : list Frame;
  recording_thread : RecordingThread;
  start_time : Q
}.

Definition init : AudioRecorder :=
  {| is_recording := false; audio_data := [];
     recording_thread := NoThread; start_time := 0 |}.

Definition set_is_recording (b : bool) (r : AudioRecorder) :=
  {| is_recording := b; audio_data := audio_data r;
     recording_thread := recording_thread r; start_time := start_time r |}.

Definition set_audio_data (d : list Frame) (r : AudioRecorder) :=
  {| is_recording := is_recording r; audio_data := d;
     recording_thread := recording_thread r; start_time := start_time r |}.

Definition set_recording_thread (t : RecordingThread) (r : AudioRecorder) :=
  {| is_recording := is_recording r; audio_data := audio_data r;
     recording_thread := t; start_time := start_time r |}.

(** [start_recording]; [now] is the clock reading stored in
    [start_time], [thread_ok] tells whether the thread could be started
    (otherwise the [except] branch runs). *)
Definition start_recording (thread_ok : bool) (now : Q) (r : AudioRecorder)
    : bool * AudioRecorder * list Effect :=
  if is_recording r then (false, r, [])
  else
    let r1 := {| is_recording := true; audio_data := [];
                 recording_thread := recording_thread r; start_time := now |} in
    if thread_ok then
      (true, set_recording_thread Started r1, [StartRecordingThread])
    else (false, set_is_recording false r1, []).

(** The stream callback [audio_callback] of [_record_audio]. *)
Definition audio_callback (indata : Frame) (r : AudioRecorder) : AudioRecorder :=
  if is_recording r then set_audio_data (audio_data r ++ [indata]) r else r.

(** sounddevice delivering one block: the callback runs only while the
    input stream is open. *)
Definition stream_deliver (indata : Frame) (r : AudioRecorder) : AudioRecorder :=
  match recording_thread r with
  | InStream => audio_callback indata r
  | _ => r
  end.

Definition stream_deliver_all (blocks : list Frame) (r : AudioRecorder) : AudioRecorder :=
  foldl (fun acc b => stream_deliver b acc) r blocks.

(** [_record_audio], entering the [with] block; when the stream cannot
    be opened the handler clears [is_recording]. *)
Definition _record_audio_open (stream_ok : bool) (r : AudioRecorder) : AudioRecorder :=
  match recording_thread r with
  | Started =>
      if stream_ok then set_recording_thread InStream r
      else set_recording_thread Exited (set_is_recording false r)
  | _ => r
  end.

(** [_record_audio], one turn of [while self.is_recording]: the loop
    test, the 100 ms sleep and the ceiling check with the clock reading
    [now] taken after the sleep.  Leaving the loop leaves the [with]
    block, which closes the stream. *)
Definition _record_audio_iter (cfg : Config) (now : Q) (r : AudioRecorder) : AudioRecorder :=
  match recording_thread r with
  | InStream =>
      if is_recording r then
        if Qltb (max_recording_duration cfg) (now - start_time r)
        then set_recording_thread Exited r     (* break *)
        else r
      else set_recording_thread Exited r
  | _ => r
  end.

(** [np.concatenate(self.audio_data, axis=0)]. *)
Definition concatenate (d : list Frame) : list Q := concat d.

(** [stop_recording]; [now] is the clock reading taken after the join,
    [temp_filename] the name of the temporary file when saving succeeds
    ([None]: saving raised). *)
Definition stop_recording (cfg : Config) (now : Q) (temp_filename : option pystr)
    (r : AudioRecorder) : option pystr * AudioRecorder * list Effect :=
  if negb (is_recording r) then (None, r, [])
  else
    let r1 := set_is_recording false r in
    let joined :=
      match recording_thread r1 with
      | NoThread => []
      | _ => [JoinRecordingThread]
      end in
    let recording_duration := (now - start_time r1)%Q in
    if Qltb recording_duration (min_recording_duration cfg) then (None, r1, joined)
    else if negb (truthy (audio_data r1)) then (None, r1, joined)
    else
      match temp_filename with
      | Some f =>
          let audio_array := concatenate (audio_data r1) in
          (Some f, r1,
           joined ++ [WriteWav f (sample_rate cfg) audio_array]
                  ++ (if save_recordings cfg then [SaveRecordingCopy audio_array] else []))
      | None => (None, r1, joined)
      end.

Definition is_recording_active (r : AudioRecorder) : bool := is_recording r.

(** The capture session in the words of the design, read off the
    recorder: no session while [is_recording] is clear; [Capturing]
    while a session is open and its thread has not left the stream;
    [Finalizing] once the thread has left the stream and the captured
    frames wait for [stop_recording] to hand them off. *)
Inductive CaptureState := Idle | Capturing | Finalizing.

Definition capture_state (r : AudioRecorder) : CaptureState :=
  if is_recording r then
    match recording_thread r with
    | Exited => Finalizing
    | _ => Capturing
    end
  else Idle.

End AudioRecorder.

(** ** transcriber.py *)

Module Transcriber.

(** The loaded whisper model, an opaque handle. *)
Inductive Model := WhisperModel (id : nat).

Record Transcriber := {
  model : option Model;
  model_load_time : Q;
  last_used : Q
}.

Definition init : Transcriber :=
  {| model := None; model_load_time := 0; last_used := 0 |}.

(** [_ensure_model_loaded]; [load] is the outcome of
    [whisper.load_model] should it be called ([None]: it raises) and
    [load_seconds] the time it took. *)
Definition _ensure_model_loaded (load : option Model) (load_seconds : Q)
    (t : Transcriber) : bool * Transcriber :=
  match model t with
  | None =>
      match load with
      | Some m =>
          (true, {| model := Some m; model_load_time := load_seconds;
                    last_used := last_used t |})
      | None => (false, t)
      end
  | Some _ => (true, t)
  end.

(** [_model_unloader], the body of one turn of its loop, run every 30
    seconds with the clock reading [now]. *)
Definition _model_unloader_check (now : Q) (t : Transcriber) : Transcriber :=
  match model t with
  | Some _ =>
      if Qltb 0 (last_used t) && Qltb 300 (now - last_used t)
      then {| model := None; model_load_time := model_load_time t; last_used := 0 |}
      else t
  | None => t
  end.

Definition is_model_loaded (t : Transcriber) : bool :=
  match model t with Some _ => true | None => false end.

Definition set_last_used (now : Q) (t : Transcriber) : Transcriber :=
  {| model := model t; model_load_time := model_load_time t; last_used := now |}.

(** [transcribe]; [now] is the clock reading stored in [last_used] and
    [result_text] the outcome of [self.model.transcribe(audio_file)]
    ([None]: it raises, and the handler returns [None]). *)
Definition transcribe `{PyRuntime} (load : option Model) (load_seconds now : Q)
    (result_text : option pystr) (audio_file : pystr) (t : Transcriber)
    : option pystr * Transcriber * list Effect :=
  let '(loaded, t1) := _ensure_model_loaded load load_seconds t in
  if negb loaded then (None, t1, [])
  else
    let t2 := set_last_used now t1 in
    match result_text with
    | Some raw =>
        let text := PyStr.strip raw in
        (if truthy text then Some text else None, t2, [Unlink audio_file])
    | None => (None, t2, [])
    end.

End Transcriber.

(** ** text_to_speech.py *)

Module TextToSpeech.
Import PyStr.

Record TextToSpeech := {
  speech_thread : bool;        (* [self.speech_thread is not None] *)
  speech_thread_alive : bool;  (* [self.speech_thread.is_alive()] *)
  is_speaking : bool;
  stop_requested : bool;
  mixer_busy : bool;           (* [pygame.mixer.music.get_busy()] *)
  voice : pystr
}.

Definition init : TextToSpeech :=
  {| speech_thread := false; speech_thread_alive := false;
     is_speaking := false; stop_requested := false; mixer_busy := false;
     voice := py "en-US-AriaNeural" |}.

Definition set_flags (speaking stop : bool) (t : TextToSpeech) :=
  {| speech_thread := speech_thread t;
     speech_thread_alive := speech_thread_alive t;
     is_speaking := speaking; stop_requested := stop;
     mixer_busy := mixer_busy t; voice := voice t |}.

Definition set_mixer_busy (b : bool) (t : TextToSpeech) :=
  {| speech_thread := speech_thread t;
     speech_thread_alive := speech_thread_alive t;
     is_speaking := is_speaking t; stop_requested := stop_requested t;
     mixer_busy := b; voice := voice t |}.

Definition set_speech_thread (present alive : bool) (t : TextToSpeech) :=
  {| speech_thread := present; speech_thread_alive := alive;
     is_speaking := is_speaking t; stop_requested := stop_requested t;
     mixer_busy := mixer_busy t; voice := voice t |}.

(** The [replacements] dictionary of [_clean_text], in insertion order. *)
Definition replacements : list (pystr * pystr) :=
  [ (py "&", py "and"); (py "@", py "at"); (py "#", py "hash");
    (py "$", py "dollar"); (py "%", py "percent"); (py "^", py "caret");
    (py "*", py "asterisk"); (py "+", py "plus"); (py "=", py "equals");
    (py "<", py "less than"); (py ">", py "greater than"); (py "|", py "pipe");
    ([92%N], py "backslash"); (py "/", py "slash"); (py "~", py "tilde");
    (py "`", py "backtick");
    ([169%N], py "copyright"); ([174%N], py "registered");
    ([8482%N], py "trademark"); ([176%N], py "degrees");
    ([8364%N], py "euro"); ([163%N], py "pound"); ([165%N], py "yen");
    ([8377%N], py "rupee"); ([8212%N], py " "); ([8211%N], py " ");
    ([8230%N], py " dot dot dot "); ([8594%N], py "arrow");
    ([8592%N], py "left arrow"); ([8593%N], py "up arrow");
    ([8595%N], py "down arrow"); ([10003%N], py "checkmark");
    ([10007%N], py "x mark"); ([9733%N], py "star"); ([9829%N], py "heart");
    ([9830%N], py "diamond"); ([9827%N], py "club"); ([9824%N], py "spade") ].

Section WithRuntime.
Context {RT : PyRuntime}.

(** The e-mail pass of [_clean_text] over one word. *)
Definition spell_email (word : pystr) : pystr :=
  if contains (py "@") word && contains (py ".") word
  then replace (py ".") (py " dot ") (replace (py "@") (py " at ") word)
  else word.

Definition _clean_text (text : pystr) : pystr :=
  if negb (truthy text) then []
  else
    let text := join (py " ") (split text) in
    let text := foldl (fun acc sr => replace sr.1 sr.2 acc) text replacements in
    let text :=
      if contains (py "http") (str_lower text)
      then replace (py "www.") []
             (replace (py "http://") [] (replace (py "https://") [] text))
      else text in
    let text :=
      if contains (py "@") text && contains (py ".") text
      then join (py " ") (spell_email <$> split text)
      else text in
    let text := replace (py "_") [] (replace (py "__") []
                  (replace (py "*") [] (replace (py "**") [] text))) in
    let text := replace (py "#") [] (replace (py "##") []
                  (replace (py "`") [] (replace (py "```") [] text))) in
    let text := join (py " ") (split text) in
    strip text.

End WithRuntime.

(** [stop_speech].  The join waits for the worker and writes nothing
    itself; what the worker writes on its way out is [_speech_worker_exit]. *)
Definition stop_speech (t : TextToSpeech) : TextToSpeech * list Effect :=
  if is_speaking t then
    let t1 := set_flags (is_speaking t) true t in
    let '(t2, e2) :=
      if mixer_busy t1 then (set_mixer_busy false t1, [MixerStop]) else (t1, []) in
    if speech_thread t2 && speech_thread_alive t2
    then (t2, e2 ++ [JoinSpeechThread])
    else (t2, e2)
  else (t, []).

(** [_speech_worker], its first two assignments. *)
Definition _speech_worker_enter (t : TextToSpeech) : TextToSpeech :=
  set_flags true false t.

(** [_play_audio] starting playback, reached when speech was generated
    and no stop was requested meanwhile. *)
Definition _play_audio_start (t : TextToSpeech) : TextToSpeech :=
  if stop_requested t then t else set_mixer_busy true t.

(** [_play_audio], its [finally]: the mixer is stopped if still busy. *)
Definition _play_audio_finish (t : TextToSpeech) : TextToSpeech :=
  set_mixer_busy false t.

(** [_speech_worker], its outer [finally]; the thread ends there. *)
Definition _speech_worker_exit (t : TextToSpeech) : TextToSpeech :=
  set_speech_thread (speech_thread t) false (set_flags false false t).

Section WithRuntime.
Context {RT : PyRuntime}.

(** [speak_text]. *)
Definition speak_text (text : pystr) (t : TextToSpeech)
    : TextToSpeech * list Effect :=
  if negb (truthy text) || negb (truthy (strip text)) then (t, [])
  else
    let '(t1, e1) := stop_speech t in
    let cleaned_text := _clean_text text in
    if negb (truthy cleaned_text) then (t1, e1)
    else
      let cleaned_text :=
        if (500 <? length cleaned_text)%nat
        then take 497 cleaned_text ++ py "..."
        else cleaned_text in
      (set_speech_thread true true t1, e1 ++ [StartSpeechThread cleaned_text]).

(** [speak_selected_text]; [selected_text] is what [get_selected_text()]
    returns. *)
Definition speak_selected_text (selected_text : option pystr) (t : TextToSpeech)
    : TextToSpeech * list Effect :=
  match selected_text with
  | Some sel =>
      if truthy sel then
        if is_speaking t then stop_speech t
        else
          let cleaned_text := _clean_text sel in
          if truthy cleaned_text then speak_text cleaned_text t
          else (t, [])
      else stop_speech t
  | None => stop_speech t
  end.

End WithRuntime.

Definition is_busy (t : TextToSpeech) : bool := is_speaking t.

(** The texts handed to speech workers, which pass them unchanged to
    [edge_tts.Communicate]. *)
Definition speech_jobs (es : list Effect) : list pystr :=
  omap (fun e => match e with StartSpeechThread text => Some text | _ => None end) es.

End TextToSpeech.

(** ** service.py *)

Module Service.
Import Config.

Record VoiceTranscriberService := {
  audio_recorder : AudioRecorder.AudioRecorder;
  transcriber : Transcriber.Transcriber;
  text_to_speech : TextToSpeech.TextToSpeech;
  hotkey_handler : HotkeyHandler.HotkeyHandler;
  system_tray : bool;            (* [self.system_tray is not None] *)
  is_running : bool;
  is_processing : bool
}.

(** [VoiceTranscriberService.__init__]. *)
Definition init (cfg : Config) : VoiceTranscriberService :=
  {| audio_recorder := AudioRecorder.init;
     transcriber := Transcriber.init;
     text_to_speech := TextToSpeech.init;
     hotkey_handler := HotkeyHandler.init;
     system_tray := show_system_tray cfg;
     is_running := false;
     is_processing := false |}.

Definition set_audio_recorder (r : AudioRecorder.AudioRecorder) (s : VoiceTranscriberService) :=
  {| audio_recorder := r; transcriber := transcriber s;
     text_to_speech := text_to_speech s; hotkey_handler := hotkey_handler s;
     system_tray := system_tray s; is_running := is_running s;
     is_processing := is_processing s |}.

Definition set_transcriber (t : Transcriber.Transcriber) (s : VoiceTranscriberService) :=
  {| audio_recorder := audio_recorder s; transcriber := t;
     text_to_speech := text_to_speech s; hotkey_handler := hotkey_handler s;
     system_tray := system_tray s; is_running := is_running s;
     is_processing := is_processing s |}.

Definition set_text_to_speech (t : TextToSpeech.TextToSpeech) (s : VoiceTranscriberService) :=
  {| audio_recorder := audio_recorder s; transcriber := transcriber s;
     text_to_speech := t; hotkey_handler := hotkey_handler s;
     system_tray := system_tray s; is_running := is_running s;
     is_processing := is_processing s |}.

Definition set_hotkey_handler (h : HotkeyHandler.HotkeyHandler) (s : VoiceTranscriberService) :=
  {| audio_recorder := audio_recorder s; transcriber := transcriber s;
     text_to_speech := text_to_speech s; hotkey_handler := h;
     system_tray := system_tray s; is_running := is_running s;
     is_processing := is_processing s |}.

Definition set_is_running (b : bool) (s : VoiceTranscriberService) :=
  {| audio_recorder := audio_recorder s; transcriber := transcriber s;
     text_to_speech := text_to_speech s; hotkey_handler := hotkey_handler s;
     system_tray := system_tray s; is_running := b;
     is_processing := is_processing s |}.

Definition set_is_processing (b : bool) (s : VoiceTranscriberService) :=
  {| audio_recorder := audio_recorder s; transcriber := transcriber s;
     text_to_speech := text_to_speech s; hotkey_handler := hotkey_handler s;
     system_tray := system_tray s; is_running := is_running s;
     is_processing := b |}.

(** [if config.show_notifications: self._show_notification(...)]. *)
Definition notify (cfg : Config) (title message : pystr) : list Effect :=
  if show_notifications cfg then [Notify title message] else [].

Definition tray_set_recording (s : VoiceTranscriberService) (b : bool) : list Effect :=
  if system_tray s then [TraySetRecording b] else [].

Definition set_system_tray (b : bool) (s : VoiceTranscriberService) :=
  {| audio_recorder := audio_recorder s; transcriber := transcriber s;
     text_to_speech := text_to_speech s; hotkey_handler := hotkey_handler s;
     system_tray := b; is_running := is_running s;
     is_processing := is_processing s |}.

(** [start]; [tray_ok] and [listener_ok] tell whether the system tray
    and the hotkey listener could be started. *)
Definition start (cfg : Config) (tray_ok listener_ok : bool)
    (s : VoiceTranscriberService) : bool * VoiceTranscriberService * list Effect :=
  if is_running s then (false, s, [])
  else
    let s0 := if system_tray s && negb tray_ok then set_system_tray false s else s in
    let '(ok, h) := HotkeyHandler.start listener_ok true (hotkey_handler s0) in
    let s1 := set_hotkey_handler h s0 in
    if negb ok then (false, s1, [])
    else (true, set_is_running true s1,
          notify cfg (py "Voice Transcriber Started")
            (py "Press " ++ PyStr.join (py "+") (hotkey cfg) ++ py " to record, "
             ++ PyStr.join (py "+") (tts_hotkey cfg) ++ py " for TTS")).

(** [_on_hotkey_press]. *)
Definition _on_hotkey_press (cfg : Config) (thread_ok : bool) (now : Q)
    (s : VoiceTranscriberService) : VoiceTranscriberService * list Effect :=
  if negb (is_running s) || is_processing s then (s, [])
  else
    let '(started, r, e) :=
      AudioRecorder.start_recording thread_ok now (audio_recorder s) in
    let s1 := set_audio_recorder r s in
    if started then
      (s1, e ++ tray_set_recording s1 true
             ++ notify cfg (py "Recording") (py "Hold key and speak..."))
    else (s1, e).

(** [_on_hotkey_release]. *)
Definition _on_hotkey_release (cfg : Config) (now : Q) (temp_filename : option pystr)
    (s : VoiceTranscriberService) : VoiceTranscriberService * list Effect :=
  if negb (is_running s)
     || negb (AudioRecorder.is_recording_active (audio_recorder s))
  then (s, [])
  else
    let e0 := tray_set_recording s false in
    let '(audio_file, r, e) :=
      AudioRecorder.stop_recording cfg now temp_filename (audio_recorder s) in
    let s1 := set_audio_recorder r s in
    match audio_file with
    | Some f =>
        if truthy f then (s1, e0 ++ e ++ [StartProcessingThread f])
        else (s1, e0 ++ e)
    | None => (s1, e0 ++ e)
    end.

(** [_on_tts_hotkey_press]. *)
Definition _on_tts_hotkey_press (s : VoiceTranscriberService)
    : VoiceTranscriberService * list Effect :=
  if negb (is_running s) then (s, []) else (s, [StartTtsThread]).

(** [_process_tts], the body of the TTS thread. *)
Definition _process_tts `{PyRuntime} (selected_text : option pystr)
    (s : VoiceTranscriberService) : VoiceTranscriberService * list Effect :=
  let '(t, e) := TextToSpeech.speak_selected_text selected_text (text_to_speech s) in
  (set_text_to_speech t s, e).

(** [_process_audio], its guard: [false] when the call returns at once
    because a transcription is already being processed. *)
Definition _process_audio_enter (s : VoiceTranscriberService)
    : bool * VoiceTranscriberService :=
  if is_processing s then (false, s) else (true, set_is_processing true s).

(** [_process_audio], the [try] block and its [finally]; [inserted] is
    what [text_inserter.insert_text] returns. *)
Definition _process_audio_run `{PyRuntime} (cfg : Config) (load : option Transcriber.Model)
    (load_seconds now : Q) (result_text : option pystr) (inserted : bool)
    (audio_file : pystr) (s : VoiceTranscriberService)
    : VoiceTranscriberService * list Effect :=
  let e0 := notify cfg (py "Processing") (py "Transcribing audio...") in
  let '(text, t, e1) :=
    Transcriber.transcribe load load_seconds now result_text audio_file (transcriber s) in
  let s1 := set_transcriber t s in
  let e2 :=
    match text with
    | Some txt =>
        if inserted then
          TypeText txt ::
          (if show_notifications cfg
           then [Notify (py "Success") (py "Typed: " ++ take 50 txt ++ py "...")]
           else [])
        else notify cfg (py "Error") (py "Failed to insert text")
    | None => notify cfg (py "No Speech") (py "No speech detected or transcription failed")
    end in
  (set_is_processing false s1, e0 ++ e1 ++ e2).

Definition _process_audio `{PyRuntime} (cfg : Config) (load : option Transcriber.Model)
    (load_seconds now : Q) (result_text : option pystr) (inserted : bool)
    (audio_file : pystr) (s : VoiceTranscriberService)
    : VoiceTranscriberService * list Effect :=
  let '(entered, s1) := _process_audio_enter s in
  if entered
  then _process_audio_run cfg load load_seconds now result_text inserted audio_file s1
  else (s1, []).

(** [stop]. *)
Definition stop (cfg : Config) (now : Q) (temp_filename : option pystr)
    (s : VoiceTranscriberService) : VoiceTranscriberService * list Effect :=
  if negb (is_running s) then (s, [])
  else
    let s1 := set_hotkey_handler (HotkeyHandler.stop (hotkey_handler s)) s in
    let e0 := if system_tray s1 then [TrayStop] else [] in
    let '(r, e) :=
      if AudioRecorder.is_recording_active (audio_recorder s1) then
        let '(_, r, e) :=
          AudioRecorder.stop_recording cfg now temp_filename (audio_recorder s1) in
        (r, e)
      else (audio_recorder s1, []) in
    (set_is_running false (set_audio_recorder r s1), e0 ++ e).

(** The flags of [get_status]. *)
Record Status := {
  st_is_running : bool;
  st_is_processing : bool;
  st_is_recording : bool;
  st_is_speaking : bool;
  st_model_loaded : bool
}.

Definition get_status (s : VoiceTranscriberService) : Status :=
  {| st_is_running := is_running s;
     st_is_processing := is_processing s;
     st_is_recording := AudioRecorder.is_recording_active (audio_recorder s);
     st_is_speaking := TextToSpeech.is_busy (text_to_speech s);
     st_model_loaded := Transcriber.is_model_loaded (transcriber s) |}.

End Service.

(** ** States used in the examples *)

Module Scenarios.
Import Config Service.
#[local] Existing Instance ascii_runtime.

(** A transcriber whose model was loaded and last used at time 1000. *)
Definition used_at_1000 : Transcriber.Transcriber :=
  (Transcriber.transcribe (Some (Transcriber.WhisperModel 1)) 2%Q 1000%Q
     (Some (py " hello ")) (py "/tmp/a.wav") Transcriber.init).1.2.

(** A worker is speaking and the mixer is playing. *)
Definition speaking : TextToSpeech.TextToSpeech :=
  TextToSpeech._play_audio_start
    (TextToSpeech._speech_worker_enter
       (TextToSpeech.speak_text (py "Hello") TextToSpeech.init).1).

(** The service after a successful [start]. *)
Definition running : VoiceTranscriberService :=
  (Service.start config true true (Service.init config)).1.2.

(** The service while a transcription is being processed. *)
Definition transcribing : VoiceTranscriberService :=
  (_process_audio_enter running).2.

(** The service in a capture begun at time 100 that has received one
    block. *)
Definition capturing : VoiceTranscriberService :=
  let s := (_on_hotkey_press config true 100%Q running).1 in
  set_audio_recorder
    (AudioRecorder.stream_deliver [0.5%Q]
       (AudioRecorder._record_audio_open true (audio_recorder s))) s.

End Scenarios.

(** ** The code around the handlers *)

(** Observations on the callbacks the key handlers fire. *)
Module HotkeyTrace.
Import HotkeyHandler.

(** The record callbacks of a run taken in order: a press callback comes
    only while no recording is announced, a release callback only while
    one is; [recording] says which holds at the start. *)
Fixpoint alternating (recording : bool) (cbs : list Callback) : bool :=
  match cbs with
  | [] => true
  | OnPress :: rest => negb recording && alternating true rest
  | OnRelease :: rest => recording && alternating false rest
  | OnTtsPress :: rest => alternating recording rest
  end.

(** A burst of key-down events. *)
Definition presses (ps : list (Q * Key)) : list KeyEvent :=
  (fun p => Press p.1 p.2) <$> ps.

End HotkeyTrace.

(** The passes of [TextToSpeech._clean_text], one definition per block of
    the source. *)
Module TextCleaning.
Import PyStr TextToSpeech.

Section WithRuntime.
Context {RT : PyRuntime}.

(** The text does not begin with a whitespace character. *)
Definition clean_head (s : pystr) : Prop :=
  match s with c :: _ => chr_isspace c = false | [] => True end.

(** [" ".join(text.split())]. *)
Definition normalize_spaces (text : pystr) : pystr := join (py " ") (split text).

(** The loop over [replacements.items()]. *)
Definition replace_symbols (text : pystr) : pystr :=
  foldl (fun acc sr => replace sr.1 sr.2 acc) text replacements.

(** The block under [# Handle URLs]. *)
Definition handle_urls (text : pystr) : pystr :=
  if contains (py "http") (str_lower text)
  then replace (py "www.") []
         (replace (py "http://") [] (replace (py "https://") [] text))
  else text.

(** The block under [# Handle email addresses]. *)
Definition handle_emails (text : pystr) : pystr :=
  if contains (py "@") text && contains (py ".") text
  then join (py " ") (spell_email <$> split text)
  else text.

(** The block under [# Remove markdown formatting]. *)
Definition remove_markdown (text : pystr) : pystr :=
  let text := replace (py "_") [] (replace (py "__") []
                (replace (py "*") [] (replace (py "**") [] text))) in
  replace (py "#") [] (replace (py "##") []
    (replace (py "`") [] (replace (py "```") [] text))).

End WithRuntime.

(** Whether running the replacement loop over [table] is sure to leave
    no character [c]: [known] tells that [c] is already absent; an entry
    keeps or makes [c] absent when its replacement text has no [c] and
    either [c] was absent or the entry replaces exactly [c]. *)
Fixpoint cleared (c : N) (known : bool) (table : list (pystr * pystr)) : bool :=
  match table with
  | [] => known
  | (old, new) :: rest =>
      cleared c ((known || bool_decide (old = [c])) && negb (bool_decide (c ∈ new))) rest
  end.

End TextCleaning.

(** [TextToSpeech.get_selected_text]. *)
Module SelectedText.
Import PyStr.

(** The writes to the clipboard, [pyperclip.copy(text)]. *)
Inductive ClipboardWrite := ClipboardCopy (text : pystr).

Section WithRuntime.
Context {RT : PyRuntime}.

(** Method 1; [xclip] is the outcome of [subprocess.run(['xclip', ...])]:
    return code and standard output, [None] when it raises. *)
Definition xclip_selection (xclip : option (Z * pystr)) : option pystr :=
  match xclip with
  | Some (returncode, stdout) =>
      if (returncode =? 0)%Z && truthy (strip stdout)
      then Some (strip stdout) else None
  | None => None
  end.

(** One copy attempt of method 2; [pasted] is what [pyperclip.paste()]
    returns after the simulated Ctrl+C, [None] when the attempt raises. *)
Definition copy_attempt (original_clipboard : pystr) (pasted : option pystr)
    : option pystr :=
  match pasted with
  | Some current_clipboard =>
      if truthy current_clipboard
         && negb (bool_decide (current_clipboard = original_clipboard))
         && truthy (strip current_clipboard)
      then Some (strip current_clipboard) else None
  | None => None
  end.

(** [for attempt in range(3)]: the first attempt that succeeds returns. *)
Definition copy_attempts (original_clipboard : pystr)
    (paste : nat -> option pystr) : option pystr :=
  foldr (fun attempt later =>
           match copy_attempt original_clipboard (paste attempt) with
           | Some text => Some text
           | None => later
           end) None (seq 0 3).

(** [get_selected_text]; [original] is the outcome of the first
    [pyperclip.paste()], [clear_ok] tells whether [pyperclip.copy("")]
    succeeded (otherwise method 2 is abandoned), [paste] gives the
    clipboard read of each attempt. *)
Definition get_selected_text (original : option pystr) (xclip : option (Z * pystr))
    (clear_ok : bool) (paste : nat -> option pystr)
    : option pystr * list ClipboardWrite :=
  let original_clipboard := default [] original in
  match xclip_selection xclip with
  | Some selected_text => (Some selected_text, [])
  | None =>
      let cleared := if clear_ok then [ClipboardCopy []] else [] in
      match (if clear_ok then copy_attempts original_clipboard paste else None) with
      | Some text => (Some text, cleared)
      | None =>
          (None,
           cleared ++ (if truthy original_clipboard
                       then [ClipboardCopy original_clipboard] else []))
      end
  end.

End WithRuntime.

End SelectedText.

(** Observations on the effects of the service. *)
Module ServiceTrace.
Import Service.

(** The service with its recorder advanced by the recording thread or
    the audio stream. *)
Definition with_recorder (f : AudioRecorder.AudioRecorder -> AudioRecorder.AudioRecorder)
    (s : VoiceTranscriberService) : VoiceTranscriberService :=
  set_audio_recorder (f (audio_recorder s)) s.

(** The texts of the successful calls of [insert_text]. *)
Definition typed (es : list Effect) : list pystr :=
  omap (fun e => match e with TypeText text => Some text | _ => None end) es.

(** The unloader's checks at the given clock readings, in order. *)
Definition unloader_checks (times : list Q) (t : Transcriber.Transcriber)
    : Transcriber.Transcriber :=
  foldl (fun acc now => Transcriber._model_unloader_check now acc) t times.

End ServiceTrace.

(** Further states used in the examples. *)
Module FurtherScenarios.
Import Config HotkeyHandler.
#[local] Existing Instance ascii_runtime.

(** Ctrl and F1 are down and the press callback has fired. *)
Definition holding : HotkeyHandler :=
  (_on_key_press config 1%Q (SpecialKey (py "f1")) (listening [py "ctrl"])).1.

(** A recorder whose stream has just been opened, started at time 100. *)
Definition streaming : AudioRecorder.AudioRecorder :=
  AudioRecorder._record_audio_open true
    (AudioRecorder.start_recording true 100%Q AudioRecorder.init).1.2.

(** A worker has begun and is still generating speech. *)
Definition generating : TextToSpeech.TextToSpeech :=
  TextToSpeech._speech_worker_enter
    (TextToSpeech.speak_text (py "Hello") TextToSpeech.init).1.

End FurtherScenarios.

(** The clock around [stop_recording]. *)
Module StopTiming.
Import Config.

(** [stop_recording] entered when the clock reads [called_at]: it clears
    [is_recording], waits [join_seconds] in
    [recording_thread.join(timeout=1.0)] and reads the clock after the
    wait. *)
Definition stop_recording_called (cfg : Config) (called_at join_seconds : Q)
    (temp_filename : option pystr) (r : AudioRecorder.AudioRecorder)
    : option pystr * AudioRecorder.AudioRecorder * list Effect :=
  AudioRecorder.stop_recording cfg (called_at + join_seconds)%Q temp_filename r.

(** [_on_hotkey_release] entered when the clock reads [called_at], its
    call of [stop_recording] waiting [join_seconds] in the join. *)
Definition _on_hotkey_release_called (cfg : Config) (called_at join_seconds : Q)
    (temp_filename : option pystr) (s : Service.VoiceTranscriberService)
    : Service.VoiceTranscriberService * list Effect :=
  Service._on_hotkey_release cfg (called_at + join_seconds)%Q temp_filename s.

End StopTiming.

(** * Properties *)

(** ** Clock comparisons *)

Lemma Qltb_lt (a b : Q) : Qltb a b = true <-> (a < b)%Q.
Proof.
  unfold Qltb. rewrite negb_true_iff. split.
  - intros Hb. apply Qnot_le_lt. intros Hle.
    apply Qle_bool_iff in Hle. congruence.
  - intros Hlt. destruct (Qle_bool b a) eqn:E; [|reflexivity].
    apply Qle_bool_iff in E. lra.
Qed.

Lemma Qltb_ge (a b : Q) : Qltb a b = false <-> (b <= a)%Q.
Proof.
  unfold Qltb. rewrite negb_false_iff. apply Qle_bool_iff.
Qed.

(** ** The chord detector *)

Section ChordDetector.
Import Config HotkeyHandler.
Context {RT : PyRuntime} (cfg : Config).

Lemma issubset_true (keys : list pystr) (pressed : gset pystr) :
  issubset keys pressed = true <-> forall k, k ∈ keys -> k ∈ pressed.
Proof.
  unfold issubset. rewrite bool_decide_eq_true. set_solver.
Qed.

Lemma issubset_grow keys pressed k :
  issubset keys pressed = true -> issubset keys ({[k]} ∪ pressed) = true.
Proof. rewrite !issubset_true. set_solver. Qed.

Lemma issubset_discard keys pressed k :
  k ∉ keys -> issubset keys pressed = true ->
  issubset keys (pressed ∖ {[k]}) = true.
Proof. rewrite !issubset_true. set_solver. Qed.

Lemma fire_other reg (a b : Callback) : a <> b -> a ∉ fire reg b.
Proof.
  unfold fire. intros Hne Hin. destruct reg.
  - by apply list_elem_of_singleton in Hin.
  - by apply elem_of_nil in Hin.
Qed.

(** A press that fires the activation of [c] leaves [c] held. *)
Lemma press_fires_held c now key h :
  activation c ∈ (_on_key_press cfg now key h).2 ->
  held cfg c (_on_key_press cfg now key h).1.
Proof.
  unfold _on_key_press, held.
  destruct (_get_key_name key) as [n|]; [|set_solver].
  destruct (truthy n); [|set_solver].
  unfold _is_record_hotkey_pressed, _is_tts_hotkey_pressed. simpl.
  destruct (issubset (hotkey cfg) _ && negb (state_record h)) eqn:Er.
  - apply andb_true_iff in Er as [Er _]. simpl.
    destruct c; simpl; [auto|].
    intros Hin. exfalso. revert Hin. by apply fire_other.
  - destruct (issubset (tts_hotkey cfg) _ && negb (state_tts h)) eqn:Et;
      [|set_solver].
    destruct (Qltb _ _); [|set_solver].
    apply andb_true_iff in Et as [Et _]. simpl.
    destruct c; simpl; [|auto].
    intros Hin. exfalso. revert Hin. by apply fire_other.
Qed.

(** While [c] is held, an event that does not release one of its keys
    fires no activation of [c] and leaves it held. *)
Lemma held_step c e h :
  held cfg c h -> releases_chord_key cfg c e = false ->
  held cfg c (handle cfg e h).1 /\ activation c ∉ (handle cfg e h).2.
Proof.
  intros [Hst Hsub] Hrel. destruct e as [now key|key]; simpl in *.
  - unfold _on_key_press, held.
    destruct (_get_key_name key) as [n|]; [|split; [done|set_solver]].
    destruct (truthy n); [|split; [done|set_solver]].
    unfold _is_record_hotkey_pressed, _is_tts_hotkey_pressed. simpl.
    pose proof (issubset_grow _ _ n Hsub) as Hsub'.
    destruct c; simpl in *.
    + rewrite Hsub', Hst. simpl.
      destruct (issubset (tts_hotkey cfg) _ && negb (state_tts h));
        [|split; [done|set_solver]].
      destruct (Qltb _ _); [|split; [done|set_solver]].
      simpl. split; [done|]. by apply fire_other.
    + destruct (issubset (hotkey cfg) _ && negb (state_record h)); simpl.
      * split; [done|]. by apply fire_other.
      * rewrite Hsub', Hst. simpl. split; [done|set_solver].
  - unfold _on_key_release, held.
    destruct (_get_key_name key) as [n|]; [|split; [done|set_solver]].
    apply bool_decide_eq_false in Hrel.
    destruct (truthy n); [|split; [done|set_solver]].
    unfold _is_record_hotkey_pressed, _is_tts_hotkey_pressed. simpl.
    pose proof (issubset_discard _ _ n Hrel Hsub) as Hsub'.
    assert (Hout : forall (b : bool) (h' : HotkeyHandler), activation c ∉
              (if b then (h', fire (on_release_callback h) OnRelease)
               else (h', [])).2).
    { intros [] h'; simpl; [|set_solver].
      apply fire_other. by destruct c. }
    split; [|apply Hout].
    match goal with |- context [if ?b then _ else _] => destruct b end;
      simpl; destruct c; simpl in *; auto.
Qed.

Lemma held_run c evs h :
  held cfg c h -> Forall (fun e => releases_chord_key cfg c e = false) evs ->
  activation c ∉ (run cfg evs h).2.
Proof.
  revert h. induction evs as [|e evs IH]; intros h Hh Hall; simpl.
  - set_solver.
  - apply Forall_cons in Hall as [He Hall].
    destruct (held_step c e h Hh He) as [Hh1 Hout1].
    destruct (handle cfg e h) as [h1 out1]. simpl in *.
    specialize (IH h1 Hh1 Hall).
    destruct (run cfg evs h1) as [h2 out2]. simpl in *.
    rewrite elem_of_app. tauto.
Qed.

(** C5. Whenever a key press fires the activation callback of a chord,
    that callback is not fired again by any sequence of key events
    following it in which none of the chord's keys is released. *)
Theorem chord_fires_once_per_hold c now key h evs :
  activation c ∈ (_on_key_press cfg now key h).2 ->
  Forall (fun e => releases_chord_key cfg c e = false) evs ->
  activation c ∉ (run cfg evs (_on_key_press cfg now key h).1).2.
Proof.
  intros Hfire Hall. apply held_run; [|done]. by apply press_fires_held.
Qed.

(** C6. A key press that arrives less than the debounce interval after
    the last speak-chord trigger fires no speak-chord callback and
    leaves the trigger time and the speak-chord state as they were; the
    interval is 500 ms.  A key press that completes the record chord
    while it is inactive fires the record callback whatever the clock
    and the last trigger time are. *)
Theorem debounce_only_on_speak_chord now now' key h :
  ((now - last_tts_trigger h < tts_debounce_time h)%Q ->
     (OnTtsPress ∉ (_on_key_press cfg now key h).2)
     /\ last_tts_trigger (_on_key_press cfg now key h).1 = last_tts_trigger h
     /\ state_tts (_on_key_press cfg now key h).1 = state_tts h)
  /\ tts_debounce_time HotkeyHandler.init = 1 # 2
  /\ (forall n, _get_key_name key = Some n -> truthy n = true ->
       issubset (hotkey cfg) ({[n]} ∪ pressed_keys h) = true ->
       state_record h = false ->
       (_on_key_press cfg now' key h).2 = fire (on_press_callback h) OnPress
       /\ state_record (_on_key_press cfg now' key h).1 = true).
Proof.
  split; [|split; [reflexivity|]].
  - intros Hwin. unfold _on_key_press.
    destruct (_get_key_name key) as [n|]; [|by split; [apply not_elem_of_nil|]].
    destruct (truthy n); [|by split; [apply not_elem_of_nil|]].
    destruct (_is_record_hotkey_pressed cfg _ && _).
    { split; [by apply fire_other|done]. }
    destruct (_is_tts_hotkey_pressed cfg _ && _);
      [|by split; [apply not_elem_of_nil|]].
    simpl. destruct (Qltb _ _) eqn:Eq;
      [|by split; [apply not_elem_of_nil|]].
    apply Qltb_lt in Eq. lra.
  - intros n Hn Ht Hsub Hst. unfold _on_key_press.
    rewrite Hn, Ht. unfold _is_record_hotkey_pressed. simpl.
    rewrite Hsub, Hst. simpl. done.
Qed.

(** C7, amended. When one key press completes the record chord and the
    speak chord while both are inactive, the record callback alone is
    fired: the speak chord is not looked at on that event, its state
    stays inactive and its trigger time unchanged. *)
Theorem record_chord_shadows_speak_chord now key n h :
  _get_key_name key = Some n -> truthy n = true ->
  issubset (hotkey cfg) ({[n]} ∪ pressed_keys h) = true ->
  issubset (tts_hotkey cfg) ({[n]} ∪ pressed_keys h) = true ->
  state_record h = false -> state_tts h = false ->
  (_on_key_press cfg now key h).2 = fire (on_press_callback h) OnPress
  /\ (OnTtsPress ∉ (_on_key_press cfg now key h).2)
  /\ state_record (_on_key_press cfg now key h).1 = true
  /\ state_tts (_on_key_press cfg now key h).1 = false
  /\ last_tts_trigger (_on_key_press cfg now key h).1 = last_tts_trigger h.
Proof.
  intros Hn Ht Hrec _ Hsr Hst. unfold _on_key_press.
  rewrite Hn, Ht. unfold _is_record_hotkey_pressed. simpl.
  rewrite Hrec, Hsr. simpl.
  repeat split; try done. by apply fire_other.
Qed.

End ChordDetector.

Section ChordDetectorExamples.
Import Scenarios Config HotkeyHandler.
#[local] Existing Instance ascii_runtime.

Lemma chord_fires_once_per_hold_witness :
  let h := listening [py "ctrl"] in
  let key := SpecialKey (py "F1") in
  let evs := [Press 2%Q (SpecialKey (py "f1")); Press 3%Q (KeyCode (Some (py "a")));
              Release (KeyCode (Some (py "a"))); Press 4%Q (SpecialKey (py "ctrl_r"))] in
  activation RecordChord ∈ (_on_key_press config 1%Q key h).2
  /\ Forall (fun e => releases_chord_key config RecordChord e = false) evs
  /\ activation RecordChord ∉ (run config evs (_on_key_press config 1%Q key h).1).2.
Proof.
  intros h key evs.
  assert (H1 : activation RecordChord ∈ (_on_key_press config 1%Q key h).2).
  { vm_compute. apply list_elem_of_singleton. reflexivity. }
  assert (H2 : Forall (fun e => releases_chord_key config RecordChord e = false) evs).
  { repeat constructor. }
  exact (conj H1 (conj H2
           (chord_fires_once_per_hold config RecordChord 1%Q key h evs H1 H2))).
Defined.

Lemma debounce_only_on_speak_chord_witness :
  let h := set_last_tts_trigger 10%Q (listening [py "ctrl"]) in
  let key := SpecialKey (py "f2") in
  let now := 10.3%Q in
  ((now - last_tts_trigger h < tts_debounce_time h)%Q
   /\ (OnTtsPress ∉ (_on_key_press config now key h).2)
   /\ last_tts_trigger (_on_key_press config now key h).1 = 10%Q)
  /\ (let k1 := SpecialKey (py "f1") in
      _get_key_name k1 = Some (py "f1")
      /\ (_on_key_press config now k1 h).2 = [OnPress]).
Proof.
  intros h key now. split.
  - assert (Hw : (now - last_tts_trigger h < tts_debounce_time h)%Q)
      by (vm_compute; reflexivity).
    destruct (debounce_only_on_speak_chord config now 0%Q key h) as [Htts _].
    destruct (Htts Hw) as (Ha & Hb & _). auto.
  - intros k1. split; [reflexivity|].
    destruct (debounce_only_on_speak_chord config 0%Q now k1 h) as (_ & _ & Hrec).
    assert (E1 : _get_key_name k1 = Some (py "f1")) by (vm_compute; reflexivity).
    assert (E2 : truthy (py "f1") = true) by reflexivity.
    assert (E3 : issubset (hotkey config) ({[py "f1"]} ∪ pressed_keys h) = true)
      by (vm_compute; reflexivity).
    assert (E4 : state_record h = false) by reflexivity.
    exact (proj1 (Hrec (py "f1") E1 E2 E3 E4)).
Defined.

(** C7 as stated fails: with F1 and F2 down, pressing Ctrl completes
    both chords at once, both inactive and the debounce interval long
    past, and the speak-chord callback is not fired. *)
Lemma both_chords_complete_only_record_fires :
  let h := listening [py "f1"; py "f2"] in
  let key := SpecialKey (py "ctrl_l") in
  let r := _on_key_press config 1000%Q key h in
  (_is_record_hotkey_pressed config h = false
   /\ _is_tts_hotkey_pressed config h = false
   /\ state_record h = false /\ state_tts h = false
   /\ on_tts_press_callback h = true
   /\ (tts_debounce_time h < 1000 - last_tts_trigger h)%Q
   /\ _is_record_hotkey_pressed config r.1 = true
   /\ _is_tts_hotkey_pressed config r.1 = true)
  /\ ~ (OnPress ∈ r.2 /\ OnTtsPress ∈ r.2).
Proof.
  intros h key r. split.
  - repeat split; vm_compute; reflexivity.
  - intros [_ Htts]. vm_compute in Htts.
    apply list_elem_of_singleton in Htts. discriminate.
Qed.

Lemma record_chord_shadows_speak_chord_witness :
  let h := listening [py "f1"; py "f2"] in
  let key := SpecialKey (py "ctrl_l") in
  (_on_key_press config 1000%Q key h).2 = [OnPress]
  /\ state_tts (_on_key_press config 1000%Q key h).1 = false.
Proof.
  intros h key.
  destruct (record_chord_shadows_speak_chord config 1000%Q key (py "ctrl") h)
    as (Hout & _ & _ & Htts & _); try (vm_compute; reflexivity).
  split; [exact Hout | exact Htts].
Defined.

End ChordDetectorExamples.

(** ** The capture controller *)

Section CaptureController.
Import Config AudioRecorder.
Variable cfg : Config.

Lemma stream_deliver_all_exited blocks r :
  recording_thread r = Exited -> stream_deliver_all blocks r = r.
Proof.
  intros Hex. unfold stream_deliver_all.
  induction blocks as [|b blocks IH]; simpl; [done|].
  unfold stream_deliver at 2. by rewrite Hex.
Qed.

(** C4. When the recording loop finds that more than
    [max_recording_duration] (30 s by default) has passed since
    [start_time], it leaves the input stream although no stop was asked
    for: the session goes from capturing to finalizing, the frames
    captured so far are kept and no block delivered afterwards is
    appended. *)
Theorem max_duration_forces_finalizing now r blocks :
  capture_state r = Capturing -> recording_thread r = InStream ->
  (max_recording_duration cfg < now - start_time r)%Q ->
  max_recording_duration config = 30%Q
  /\ capture_state (_record_audio_iter cfg now r) = Finalizing
  /\ recording_thread (_record_audio_iter cfg now r) = Exited
  /\ audio_data (_record_audio_iter cfg now r) = audio_data r
  /\ audio_data (stream_deliver_all blocks (_record_audio_iter cfg now r))
     = audio_data r.
Proof.
  intros Hcap Hthr Hmax. apply Qltb_lt in Hmax.
  unfold capture_state in Hcap.
  destruct (is_recording r) eqn:Hrec; [|discriminate].
  assert (Hiter : _record_audio_iter cfg now r = set_recording_thread Exited r).
  { unfold _record_audio_iter. by rewrite Hthr, Hrec, Hmax. }
  rewrite Hiter. split; [reflexivity|].
  rewrite stream_deliver_all_exited by reflexivity.
  unfold capture_state. simpl. by rewrite Hrec.
Qed.

(** After the ceiling has ended the capture the recorder still counts as
    recording, and a later [stop_recording] hands the frames off. *)
Remark max_duration_keeps_session now r :
  is_recording r = true -> recording_thread r = InStream ->
  (max_recording_duration cfg < now - start_time r)%Q ->
  is_recording_active (_record_audio_iter cfg now r) = true.
Proof.
  intros Hrec Hthr Hmax. apply Qltb_lt in Hmax.
  unfold _record_audio_iter. by rewrite Hthr, Hrec, Hmax.
Qed.

End CaptureController.

Lemma max_duration_forces_finalizing_witness :
  let r := AudioRecorder.stream_deliver [0.25%Q; 0.5%Q]
             (AudioRecorder._record_audio_open true
                (AudioRecorder.start_recording true 100%Q AudioRecorder.init).1.2) in
  let r' := AudioRecorder._record_audio_iter Config.config 130.1%Q r in
  AudioRecorder.capture_state r = AudioRecorder.Capturing
  /\ AudioRecorder.capture_state r' = AudioRecorder.Finalizing
  /\ AudioRecorder.audio_data
       (AudioRecorder.stream_deliver_all [[1%Q]; [2%Q]] r') = [[0.25%Q; 0.5%Q]].
Proof.
  intros r r'.
  assert (H1 : AudioRecorder.capture_state r = AudioRecorder.Capturing)
    by reflexivity.
  assert (H2 : AudioRecorder.recording_thread r = AudioRecorder.InStream)
    by reflexivity.
  assert (H3 : (Config.max_recording_duration Config.config
                < 130.1 - AudioRecorder.start_time r)%Q)
    by (vm_compute; reflexivity).
  destruct (max_duration_forces_finalizing Config.config 130.1%Q r
              [[1%Q]; [2%Q]] H1 H2 H3) as (_ & Hfin & _ & _ & Hdata).
  exact (conj H1 (conj Hfin Hdata)).
Defined.

(** ** The transcription model *)

Section ModelLifecycle.
Import Transcriber.
Context {RT : PyRuntime}.

(** C8. When the model is absent and loading it fails,
    [_ensure_model_loaded] reports the failure and leaves the model
    absent, [transcribe] returns no text, and the attempt that follows
    calls the loader again: with a loader that succeeds it succeeds and
    holds the model just loaded. *)
Theorem load_failure_not_cached load_seconds now result_text audio_file m t :
  model t = None ->
  (_ensure_model_loaded None load_seconds t).1 = false
  /\ model (_ensure_model_loaded None load_seconds t).2 = None
  /\ is_model_loaded (_ensure_model_loaded None load_seconds t).2 = false
  /\ (transcribe None load_seconds now result_text audio_file t).1.1 = None
  /\ model (transcribe None load_seconds now result_text audio_file t).1.2 = None
  /\ (_ensure_model_loaded (Some m) load_seconds
        (_ensure_model_loaded None load_seconds t).2).1 = true
  /\ model (_ensure_model_loaded (Some m) load_seconds
        (_ensure_model_loaded None load_seconds t).2).2 = Some m.
Proof.
  intros Habs. unfold transcribe, _ensure_model_loaded, is_model_loaded.
  rewrite Habs. simpl. rewrite Habs. auto 10.
Qed.

(** C9, amended. Once the unloader's periodic check runs more than 300
    seconds after the last use of a loaded model, the status query
    reports the model as not loaded, and the next
    [_ensure_model_loaded] calls the loader again: when the loader
    returns a model the call succeeds and holds that model. *)
Theorem idle_model_unloaded_by_check now load_seconds m t :
  is_model_loaded t = true ->
  (0 < last_used t)%Q -> (300 < now - last_used t)%Q ->
  is_model_loaded (_model_unloader_check now t) = false
  /\ (_ensure_model_loaded (Some m) load_seconds (_model_unloader_check now t)).1 = true
  /\ model (_ensure_model_loaded (Some m) load_seconds (_model_unloader_check now t)).2
     = Some m.
Proof.
  intros Hl Hused Hidle. apply Qltb_lt in Hused, Hidle.
  unfold _model_unloader_check, is_model_loaded in *.
  destruct (model t); [|discriminate].
  rewrite Hused, Hidle. simpl. auto.
Qed.

End ModelLifecycle.

Section ModelLifecycleExamples.
Import Scenarios Transcriber.
#[local] Existing Instance ascii_runtime.

Lemma load_failure_not_cached_witness :
  model Transcriber.init = None
  /\ (transcribe None 0%Q 5%Q (Some (py "hi")) (py "/tmp/a.wav") Transcriber.init).1.1
     = None
  /\ model (_ensure_model_loaded (Some (WhisperModel 7)) 2%Q
             (_ensure_model_loaded None 0%Q Transcriber.init).2).2
     = Some (WhisperModel 7).
Proof.
  assert (H0 : model Transcriber.init = None) by reflexivity.
  destruct (load_failure_not_cached 0%Q 5%Q (Some (py "hi")) (py "/tmp/a.wav")
              (WhisperModel 7) Transcriber.init H0)
    as (_ & _ & _ & Htr & _ & _ & Hre).
  exact (conj H0 (conj Htr Hre)).
Defined.

(** C9 as stated fails: 301 seconds after the last use, before the
    unloader's next check has run, the status query still reports the
    model as loaded. *)
Lemma idle_model_still_reported_loaded :
  let t := used_at_1000 in
  let now := 1301%Q in
  last_used t = 1000%Q /\ (300 < now - last_used t)%Q
  /\ _model_unloader_check 1290%Q t = t
  /\ ~ (is_model_loaded t = false).
Proof.
  intros t now. split; [reflexivity|]. split; [vm_compute; reflexivity|].
  split; [reflexivity|]. vm_compute. discriminate.
Qed.

Lemma idle_model_unloaded_by_check_witness :
  let t := used_at_1000 in
  is_model_loaded t = true
  /\ is_model_loaded (_model_unloader_check 1320%Q t) = false
  /\ model (_ensure_model_loaded (Some (WhisperModel 2)) 3%Q
             (_model_unloader_check 1320%Q t)).2 = Some (WhisperModel 2).
Proof.
  intros t.
  assert (H1 : is_model_loaded t = true) by reflexivity.
  assert (H2 : (0 < last_used t)%Q) by (vm_compute; reflexivity).
  assert (H3 : (300 < 1320 - last_used t)%Q) by (vm_compute; reflexivity).
  destruct (idle_model_unloaded_by_check 1320%Q 3%Q (WhisperModel 2) t H1 H2 H3)
    as (Hun & _ & Hre).
  exact (conj H1 (conj Hun Hre)).
Defined.

End ModelLifecycleExamples.

(** ** Speech *)

Section Speech.
Import TextToSpeech.
Context {RT : PyRuntime}.

Lemma stop_speech_starts_nothing t text :
  StartSpeechThread text ∉ (stop_speech t).2.
Proof.
  unfold stop_speech.
  destruct (is_speaking t); [|apply not_elem_of_nil].
  destruct (mixer_busy _); simpl;
    destruct (speech_thread t && speech_thread_alive t); simpl;
    rewrite ?elem_of_cons, ?elem_of_nil; intuition discriminate.
Qed.

Lemma stop_speech_no_jobs t : speech_jobs (stop_speech t).2 = [].
Proof.
  unfold stop_speech.
  destruct (is_speaking t); [|reflexivity].
  destruct (mixer_busy _); simpl;
    destruct (speech_thread t && speech_thread_alive t); reflexivity.
Qed.

(** C2. When the speak trigger finds text selected while speech is in
    progress, it requests the stop, stops the mixer if it is playing and
    starts no speech worker. *)
Theorem repeated_trigger_stops_speech selected_text t :
  is_speaking t = true -> truthy_opt selected_text = true ->
  stop_requested (speak_selected_text selected_text t).1 = true
  /\ mixer_busy (speak_selected_text selected_text t).1 = false
  /\ (mixer_busy t = true -> MixerStop ∈ (speak_selected_text selected_text t).2)
  /\ (forall text, StartSpeechThread text ∉ (speak_selected_text selected_text t).2)
  /\ speech_jobs (speak_selected_text selected_text t).2 = [].
Proof.
  intros Hsp Hsel. unfold speak_selected_text.
  destruct selected_text as [sel|]; [|discriminate]. simpl in Hsel.
  rewrite Hsel, Hsp.
  split; [|split; [|split; [|split]]].
  - unfold stop_speech. rewrite Hsp. simpl.
    destruct (mixer_busy t); simpl;
      destruct (speech_thread t && speech_thread_alive t); reflexivity.
  - unfold stop_speech. rewrite Hsp. simpl.
    destruct (mixer_busy t) eqn:Hbusy; simpl;
      destruct (speech_thread t && speech_thread_alive t); simpl;
      first [reflexivity | exact Hbusy].
  - intros Hbusy. unfold stop_speech. rewrite Hsp. simpl. rewrite Hbusy. simpl.
    destruct (speech_thread t && speech_thread_alive t); apply list_elem_of_here.
  - intros text. apply stop_speech_starts_nothing.
  - apply stop_speech_no_jobs.
Qed.

(** C10. [speak_text] starts at most one speech worker; the text it
    hands over is the cleaned text when that has at most 500 characters
    and otherwise its first 497 characters followed by three dots, and
    in both cases has at most 500 characters. *)
Theorem speak_text_hands_at_most_500 text t :
  (length (if (500 <? length (_clean_text text))%nat
           then take 497 (_clean_text text) ++ py "..."
           else _clean_text text) <= 500)%nat
  /\ speech_jobs (speak_text text t).2
     = if negb (truthy text) || negb (truthy (PyStr.strip text))
          || negb (truthy (_clean_text text))
       then []
       else [if (500 <? length (_clean_text text))%nat
             then take 497 (_clean_text text) ++ py "..."
             else _clean_text text].
Proof.
  split.
  - destruct (500 <? length (_clean_text text))%nat eqn:Hlen.
    + apply Nat.ltb_lt in Hlen.
      rewrite length_app, length_take.
      change (length (py "...")) with 3%nat. lia.
    + apply Nat.ltb_ge in Hlen. exact Hlen.
  - unfold speak_text.
    destruct (negb (truthy text) || negb (truthy (PyStr.strip text)));
      [reflexivity|]. simpl.
    pose proof (stop_speech_no_jobs t) as Hstop.
    destruct (stop_speech t) as [t1 e1]. simpl in Hstop.
    destruct (negb (truthy (_clean_text text))); simpl; [exact Hstop|].
    unfold speech_jobs in *. rewrite omap_app, Hstop. reflexivity.
Qed.

End Speech.

Section SpeechExamples.
Import Scenarios TextToSpeech.
#[local] Existing Instance ascii_runtime.

Lemma repeated_trigger_stops_speech_witness :
  is_speaking speaking = true
  /\ (speak_selected_text (Some (py "Hello")) speaking).2
     = [MixerStop; JoinSpeechThread]
  /\ stop_requested (speak_selected_text (Some (py "Hello")) speaking).1 = true
  /\ speech_jobs (speak_selected_text (Some (py "Hello")) speaking).2 = [].
Proof.
  assert (H1 : is_speaking speaking = true) by reflexivity.
  assert (H2 : truthy_opt (Some (py "Hello")) = true) by reflexivity.
  destruct (repeated_trigger_stops_speech (Some (py "Hello")) speaking H1 H2)
    as (Hstop & _ & _ & _ & Hjobs).
  split; [exact H1|]. split; [vm_compute; reflexivity|].
  exact (conj Hstop Hjobs).
Defined.

Example speak_text_short :
  speech_jobs (speak_text (py "  Hello   world & co ") TextToSpeech.init).2
  = [py "Hello world and co"].
Proof. vm_compute. reflexivity. Qed.

Example speak_text_long :
  speech_jobs (speak_text (repeat 97%N 600) TextToSpeech.init).2
  = [repeat 97%N 497 ++ py "..."].
Proof. vm_compute. reflexivity. Qed.

Example clean_text_email :
  _clean_text (py "mail bob@example.com  now") = py "mail bobatexample.com now".
Proof. vm_compute. reflexivity. Qed.

End SpeechExamples.

(** ** The service *)

Section Orchestration.
Import Config Service.
Variable cfg : Config.

(** C1, amended. While [is_processing] is set the record-chord press
    handler returns at once, in every state of the service and whether
    or not a recording thread could be started: the service is left as
    it is and nothing is started, so the flag gates the start of a
    recording.  With the service running, the recorder idle and no
    transcription being processed, the handler starts a capture: the
    recorder is recording from [now] on and the recording thread is
    started. *)
Theorem press_gated_by_is_processing thread_ok now s :
  (is_processing s = true -> _on_hotkey_press cfg thread_ok now s = (s, []))
  /\ (is_running s = true -> is_processing s = false ->
      AudioRecorder.is_recording (audio_recorder s) = false ->
      AudioRecorder.is_recording
        (audio_recorder (_on_hotkey_press cfg true now s).1) = true
      /\ AudioRecorder.start_time
           (audio_recorder (_on_hotkey_press cfg true now s).1) = now
      /\ StartRecordingThread ∈ (_on_hotkey_press cfg true now s).2).
Proof.
  split.
  - intros Hproc. unfold _on_hotkey_press.
    by rewrite Hproc, orb_true_r.
  - intros Hrun Hproc Hidle. unfold _on_hotkey_press.
    rewrite Hrun, Hproc. simpl.
    unfold AudioRecorder.start_recording. rewrite Hidle. simpl.
    repeat split. apply list_elem_of_here.
Qed.

(** C3, amended. When the elapsed time [stop_recording] measures, with
    the clock read after the recording thread has been joined, is below
    [min_recording_duration] (0.5 s by default), or no frame was
    captured, [stop_recording] returns [None] and the release handler
    starts no processing thread. *)
Theorem short_or_empty_capture_discarded now temp_filename s :
  (now - AudioRecorder.start_time (audio_recorder s) < min_recording_duration cfg)%Q
  \/ AudioRecorder.audio_data (audio_recorder s) = [] ->
  min_recording_duration config = 1 # 2
  /\ (AudioRecorder.stop_recording cfg now temp_filename (audio_recorder s)).1.1 = None
  /\ (forall f, StartProcessingThread f
                ∉ (_on_hotkey_release cfg now temp_filename s).2)
  /\ is_processing (_on_hotkey_release cfg now temp_filename s).1 = is_processing s.
Proof.
  intros Hshort. split; [reflexivity|].
  assert (Hstop : forall r,
            r = audio_recorder s ->
            (AudioRecorder.stop_recording cfg now temp_filename r).1.1 = None
            /\ forall f, StartProcessingThread f
                 ∉ (AudioRecorder.stop_recording cfg now temp_filename r).2).
  { intros r ->. unfold AudioRecorder.stop_recording.
    destruct (AudioRecorder.is_recording (audio_recorder s));
      simpl; [|split; [done|intros f; apply not_elem_of_nil]].
    assert (Hj : forall f, StartProcessingThread f ∉
              match AudioRecorder.recording_thread (audio_recorder s) with
              | AudioRecorder.NoThread => []
              | _ => [JoinRecordingThread]
              end).
    { intros f. destruct (AudioRecorder.recording_thread _);
        rewrite ?elem_of_cons, ?elem_of_nil; intuition discriminate. }
    destruct Hshort as [Hlt|Hempty].
    - apply Qltb_lt in Hlt. rewrite Hlt. simpl. auto.
    - rewrite Hempty. simpl. destruct (Qltb _ _); simpl; auto. }
  destruct (Hstop _ eq_refl) as [Hnone Heff]. split; [exact Hnone|].
  unfold _on_hotkey_release.
  destruct (negb (is_running s) || _);
    [split; [intros f; apply not_elem_of_nil|reflexivity]|].
  destruct (AudioRecorder.stop_recording cfg now temp_filename (audio_recorder s))
    as [[audio_file r] e]. simpl in Hnone, Heff. subst audio_file. simpl.
  split; [|reflexivity].
  intros f. rewrite elem_of_app. intros [Hin|Hin].
  - unfold tray_set_recording in Hin. destruct (system_tray s);
      rewrite ?elem_of_cons, ?elem_of_nil in Hin; intuition discriminate.
  - by apply (Heff f).
Qed.

End Orchestration.

Section OrchestrationExamples.
Import Scenarios Config Service.
#[local] Existing Instance ascii_runtime.

(** C1 as stated fails: with the service running and a transcription
    being processed, the record-chord press handler starts no capture. *)
Lemma press_while_processing_starts_nothing :
  is_running transcribing = true /\ is_processing transcribing = true
  /\ ~ (AudioRecorder.is_recording
          (audio_recorder (_on_hotkey_press config true 10%Q transcribing).1) = true)
  /\ ~ (StartRecordingThread ∈ (_on_hotkey_press config true 10%Q transcribing).2).
Proof.
  split; [reflexivity|]. split; [reflexivity|]. split.
  - vm_compute. discriminate.
  - vm_compute. apply not_elem_of_nil.
Qed.

Lemma press_gated_by_is_processing_witness :
  (is_processing transcribing = true
   /\ _on_hotkey_press config false 10%Q transcribing = (transcribing, []))
  /\ (is_running running = true /\ is_processing running = false
      /\ StartRecordingThread ∈ (_on_hotkey_press config true 10%Q running).2).
Proof.
  assert (H1 : is_processing transcribing = true) by reflexivity.
  assert (H2 : is_running running = true) by reflexivity.
  assert (H3 : is_processing running = false) by reflexivity.
  assert (H4 : AudioRecorder.is_recording (audio_recorder running) = false)
    by reflexivity.
  split.
  - exact (conj H1
             (proj1 (press_gated_by_is_processing config false 10%Q transcribing) H1)).
  - destruct (proj2 (press_gated_by_is_processing config true 10%Q running)
                H2 H3 H4) as (_ & _ & Hstart).
    exact (conj H2 (conj H3 Hstart)).
Defined.

Lemma short_or_empty_capture_discarded_witness :
  let now := 100.2%Q in
  (now - AudioRecorder.start_time (audio_recorder capturing)
   < min_recording_duration config)%Q
  /\ (_on_hotkey_release config now (Some (py "/tmp/x.wav")) capturing).2
     = [TraySetRecording false; JoinRecordingThread]
  /\ (AudioRecorder.stop_recording config now (Some (py "/tmp/x.wav"))
        (audio_recorder capturing)).1.1 = None.
Proof.
  intros now.
  assert (H1 : (now - AudioRecorder.start_time (audio_recorder capturing)
                < min_recording_duration config)%Q) by (vm_compute; reflexivity).
  destruct (short_or_empty_capture_discarded config now (Some (py "/tmp/x.wav"))
              capturing (or_introl H1)) as (_ & Hnone & _ & _).
  split; [exact H1|]. split; [vm_compute; reflexivity|exact Hnone].
Defined.

(** C3 as stated fails: [stop_recording] is called 0.45 s after the
    start, the join of the recording thread takes 0.1 s, the clock read
    after it gives 0.55 s, and the capture is saved and handed to a
    processing thread. *)
Lemma short_capture_measured_late_is_kept :
  let called_at := 100.45%Q in
  let join_seconds := 0.1%Q in
  let f := py "/tmp/x.wav" in
  ((called_at - AudioRecorder.start_time (audio_recorder capturing)
    < min_recording_duration config)%Q
   /\ (0 <= join_seconds)%Q /\ (join_seconds <= 1)%Q
   /\ is_running capturing = true
   /\ AudioRecorder.is_recording (audio_recorder capturing) = true)
  /\ ~ ((StopTiming.stop_recording_called config called_at join_seconds (Some f)
           (audio_recorder capturing)).1.1 = None)
  /\ StartProcessingThread f
     ∈ (StopTiming._on_hotkey_release_called config called_at join_seconds
          (Some f) capturing).2.
Proof.
  intros called_at join_seconds f. split; [|split].
  - repeat split; vm_compute; solve [reflexivity | discriminate].
  - vm_compute. discriminate.
  - vm_compute. do 3 apply list_elem_of_further. apply list_elem_of_here.
Qed.

Example long_capture_is_processed :
  (_on_hotkey_release config 102%Q (Some (py "/tmp/x.wav")) capturing).2
  = [TraySetRecording false; JoinRecordingThread;
     WriteWav (py "/tmp/x.wav") 16000 [0.5%Q];
     StartProcessingThread (py "/tmp/x.wav")].
Proof. vm_compute. reflexivity. Qed.

End OrchestrationExamples.

(** * Further properties of the code *)

(** ** The chord detector over sequences of events *)

Section ChordTraces.
Import Config HotkeyHandler HotkeyTrace.
Context {RT : PyRuntime} (cfg : Config).

Lemma issubset_shrink keys pressed k :
  issubset keys (pressed ∖ {[k]}) = true -> issubset keys pressed = true.
Proof.
  rewrite !issubset_true. intros Hs x Hx. specialize (Hs x Hx).
  by apply elem_of_difference in Hs as [? _].
Qed.

Lemma issubset_lost keys pressed k :
  k ∈ keys -> issubset keys (pressed ∖ {[k]}) = false.
Proof.
  intros Hk. destruct (issubset keys (pressed ∖ {[k]})) eqn:E; [|done].
  rewrite issubset_true in E. specialize (E k Hk).
  apply elem_of_difference in E as [_ E]. exfalso. apply E.
  by apply elem_of_singleton.
Qed.

Lemma issubset_regained keys pressed k :
  issubset keys pressed = true ->
  issubset keys ({[k]} ∪ pressed ∖ {[k]}) = true.
Proof.
  rewrite !issubset_true. intros Hs x Hx. specialize (Hs x Hx).
  apply elem_of_union. destruct (decide (x = k)) as [->|Hne].
  - left. by apply elem_of_singleton.
  - right. apply elem_of_difference. split; [done|].
    by rewrite elem_of_singleton.
Qed.

Lemma callbacks_kept e h :
  on_press_callback (handle cfg e h).1 = on_press_callback h
  /\ on_release_callback (handle cfg e h).1 = on_release_callback h.
Proof.
  destruct e as [now key|key]; simpl.
  - unfold _on_key_press.
    destruct (_get_key_name key) as [n|]; [|done].
    destruct (truthy n); [|done].
    destruct (_is_record_hotkey_pressed cfg _ && _); [done|].
    destruct (_is_tts_hotkey_pressed cfg _ && _); [|done].
    simpl. by destruct (Qltb _ _).
  - unfold _on_key_release.
    destruct (_get_key_name key) as [n|]; [|done].
    destruct (truthy n); [|done].
    match goal with |- context [if ?b then _ else _] => by destruct b end.
Qed.

Lemma tracks_step e h :
  state_record h = _is_record_hotkey_pressed cfg h ->
  state_record (handle cfg e h).1
  = _is_record_hotkey_pressed cfg (handle cfg e h).1.
Proof.
  intros Htr. destruct e as [now key|key]; simpl.
  - unfold _on_key_press.
    destruct (_get_key_name key) as [n|]; [|done].
    destruct (truthy n); [|done].
    unfold _is_record_hotkey_pressed, _is_tts_hotkey_pressed in *. simpl.
    destruct (issubset (hotkey cfg) ({[n]} ∪ pressed_keys h)) eqn:E1;
      destruct (state_record h) eqn:E2; simpl.
    + destruct (issubset (tts_hotkey cfg) _ && negb (state_tts h));
        [destruct (Qltb _ _)|]; simpl; by rewrite ?E1, ?E2.
    + by rewrite E1.
    + symmetry in Htr. apply (issubset_grow _ _ n) in Htr. congruence.
    + destruct (issubset (tts_hotkey cfg) _ && negb (state_tts h));
        [destruct (Qltb _ _)|]; simpl; by rewrite ?E1, ?E2.
  - unfold _on_key_release.
    destruct (_get_key_name key) as [n|]; [|done].
    destruct (truthy n); [|done].
    match goal with |- context [if ?b then _ else _] => by destruct b end.
Qed.

(** X1. Once the record entry of [hotkey_states] says whether the record
    chord is down, it goes on doing so after every sequence of key
    events. *)
Theorem record_state_tracks_chord evs h :
  state_record h = _is_record_hotkey_pressed cfg h ->
  state_record (run cfg evs h).1 = _is_record_hotkey_pressed cfg (run cfg evs h).1.
Proof.
  revert h. induction evs as [|e evs IH]; intros h Htr; simpl; [done|].
  pose proof (tracks_step e h Htr) as H1.
  destruct (handle cfg e h) as [h1 out1]. simpl in H1.
  specialize (IH h1 H1). by destruct (run cfg evs h1).
Qed.

Lemma alternating_step e h rest :
  state_record h = _is_record_hotkey_pressed cfg h ->
  on_press_callback h = true -> on_release_callback h = true ->
  alternating (state_record (handle cfg e h).1) rest = true ->
  alternating (state_record h) ((handle cfg e h).2 ++ rest) = true.
Proof.
  intros Htr Hp Hr. destruct e as [now key|key]; simpl.
  - unfold _on_key_press.
    destruct (_get_key_name key) as [n|]; [|done].
    destruct (truthy n); [|done].
    unfold _is_record_hotkey_pressed, _is_tts_hotkey_pressed in *. simpl.
    destruct (issubset (hotkey cfg) ({[n]} ∪ pressed_keys h) && negb (state_record h))
      eqn:E1; simpl.
    + apply andb_true_iff in E1 as [_ E1]. apply negb_true_iff in E1.
      rewrite Hp, E1. simpl. done.
    + destruct (issubset (tts_hotkey cfg) _ && negb (state_tts h)); [|done].
      destruct (Qltb _ _); [|done]. simpl.
      by destruct (on_tts_press_callback h).
  - unfold _on_key_release.
    destruct (_get_key_name key) as [n|]; [|done].
    destruct (truthy n); [|done].
    unfold _is_record_hotkey_pressed, _is_tts_hotkey_pressed in *. simpl.
    destruct (state_record h) eqn:E2; simpl.
    + destruct (issubset (hotkey cfg) (pressed_keys h ∖ {[n]})) eqn:E3; simpl.
      * done.
      * rewrite Hr. simpl. done.
    + destruct (issubset (hotkey cfg) (pressed_keys h ∖ {[n]})) eqn:E3; simpl.
      * apply issubset_shrink in E3. congruence.
      * done.
Qed.

(** X2. With both record callbacks registered and the record state in
    step with the keys, the press and release callbacks of any sequence
    of key events alternate: no press callback while a recording is
    announced, no release callback while none is. *)
Theorem record_callbacks_alternate evs h :
  state_record h = _is_record_hotkey_pressed cfg h ->
  on_press_callback h = true -> on_release_callback h = true ->
  alternating (state_record h) (run cfg evs h).2 = true.
Proof.
  revert h. induction evs as [|e evs IH]; intros h Htr Hp Hr; simpl; [done|].
  pose proof (tracks_step e h Htr) as H1.
  pose proof (callbacks_kept e h) as [Hp1 Hr1].
  pose proof (alternating_step e h) as Hstep.
  destruct (handle cfg e h) as [h1 out1]. simpl in *.
  rewrite Hp in Hp1. rewrite Hr in Hr1.
  specialize (IH h1 H1 Hp1 Hr1).
  destruct (run cfg evs h1) as [h2 out2]. simpl in *.
  by apply Hstep.
Qed.

Lemma active_pressed_step c e h :
  (chord_state c h = true ->
   issubset (chord_keys cfg c) (pressed_keys h) = true) ->
  chord_state c (handle cfg e h).1 = true ->
  issubset (chord_keys cfg c) (pressed_keys (handle cfg e h).1) = true.
Proof.
  intros Hinv. destruct e as [now key|key]; simpl.
  - unfold _on_key_press.
    destruct (_get_key_name key) as [n|]; [|done].
    destruct (truthy n); [|done].
    unfold _is_record_hotkey_pressed, _is_tts_hotkey_pressed. simpl.
    destruct (issubset (hotkey cfg) _ && negb (state_record h)) eqn:E1; simpl.
    { apply andb_true_iff in E1 as [E1 _].
      destruct c; simpl; [done|]. intros Hs. by apply issubset_grow, Hinv. }
    destruct (issubset (tts_hotkey cfg) _ && negb (state_tts h)) eqn:E2; simpl.
    + destruct (Qltb _ _); simpl.
      * apply andb_true_iff in E2 as [E2 _].
        destruct c; simpl; [|done]. intros Hs. by apply issubset_grow, Hinv.
      * intros Hs. by apply issubset_grow, Hinv.
    + intros Hs. by apply issubset_grow, Hinv.
  - unfold _on_key_release.
    destruct (_get_key_name key) as [n|]; [|done].
    destruct (truthy n); [|done].
    unfold _is_record_hotkey_pressed, _is_tts_hotkey_pressed. simpl.
    match goal with |- context [if ?b then _ else _] => destruct b end;
      simpl; by destruct c.
Qed.

Lemma active_pressed_run c evs h :
  (chord_state c h = true ->
   issubset (chord_keys cfg c) (pressed_keys h) = true) ->
  chord_state c (run cfg evs h).1 = true ->
  issubset (chord_keys cfg c) (pressed_keys (run cfg evs h).1) = true.
Proof.
  revert h. induction evs as [|e evs IH]; intros h Hinv; simpl; [done|].
  pose proof (active_pressed_step c e h Hinv) as H1.
  destruct (handle cfg e h) as [h1 out1]. simpl in H1.
  specialize (IH h1 H1). by destruct (run cfg evs h1).
Qed.

(** X3. After any sequence of key events delivered to a fresh handler, a
    chord whose state is active has all its keys in the set of pressed
    keys. *)
Theorem active_chord_is_pressed c evs :
  chord_state c (run cfg evs HotkeyHandler.init).1 = true ->
  issubset (chord_keys cfg c)
    (pressed_keys (run cfg evs HotkeyHandler.init).1) = true.
Proof. apply active_pressed_run. by destruct c. Qed.

(** X4. When the record chord is held and one of its keys goes up, the
    release callback is fired and the chord becomes inactive; pressing
    that key again fires the press callback again and the chord is held
    anew. *)
Theorem release_then_press_rearms now key k h :
  held cfg RecordChord h ->
  _get_key_name key = Some k -> truthy k = true -> k ∈ hotkey cfg ->
  (_on_key_release cfg key h).2 = fire (on_release_callback h) OnRelease
  /\ state_record (_on_key_release cfg key h).1 = false
  /\ (_on_key_press cfg now key (_on_key_release cfg key h).1).2
     = fire (on_press_callback h) OnPress
  /\ held cfg RecordChord (_on_key_press cfg now key (_on_key_release cfg key h).1).1.
Proof.
  intros [Hst Hsub] Hk Ht Hin. simpl in Hst, Hsub.
  unfold _on_key_release, _on_key_press. rewrite Hk, Ht.
  unfold _is_record_hotkey_pressed, _is_tts_hotkey_pressed. simpl.
  rewrite (issubset_lost _ _ _ Hin), Hst. simpl.
  rewrite (issubset_regained _ _ k Hsub). simpl.
  repeat split. simpl. by apply issubset_regained.
Qed.

Lemma no_release_step e h :
  held cfg RecordChord h -> releases_chord_key cfg RecordChord e = false ->
  OnRelease ∉ (handle cfg e h).2.
Proof.
  intros [Hst Hsub] Hrel. simpl in Hst, Hsub.
  destruct e as [now key|key]; simpl in *.
  - unfold _on_key_press.
    destruct (_get_key_name key) as [n|]; [|apply not_elem_of_nil].
    destruct (truthy n); [|apply not_elem_of_nil].
    destruct (_is_record_hotkey_pressed cfg _ && _); [by apply fire_other|].
    destruct (_is_tts_hotkey_pressed cfg _ && _); [|apply not_elem_of_nil].
    simpl. destruct (Qltb _ _); [by apply fire_other|apply not_elem_of_nil].
  - unfold _on_key_release.
    destruct (_get_key_name key) as [n|]; [|apply not_elem_of_nil].
    apply bool_decide_eq_false in Hrel.
    destruct (truthy n); [|apply not_elem_of_nil].
    unfold _is_record_hotkey_pressed, _is_tts_hotkey_pressed. simpl.
    rewrite (issubset_discard _ _ n Hrel Hsub), Hst. simpl.
    apply not_elem_of_nil.
Qed.

(** X5. While the record chord is held, no sequence of events that
    leaves its keys down fires the release callback: pressing and
    releasing other keys does not end the recording. *)
Theorem held_chord_not_released evs h :
  held cfg RecordChord h ->
  Forall (fun e => releases_chord_key cfg RecordChord e = false) evs ->
  OnRelease ∉ (run cfg evs h).2.
Proof.
  revert h. induction evs as [|e evs IH]; intros h Hh Hall; simpl.
  - apply not_elem_of_nil.
  - apply Forall_cons in Hall as [He Hall].
    pose proof (no_release_step e h Hh He) as Hout.
    destruct (held_step cfg RecordChord e h Hh He) as [Hh1 _].
    destruct (handle cfg e h) as [h1 out1]. simpl in *.
    specialize (IH h1 Hh1 Hall).
    destruct (run cfg evs h1) as [h2 out2]. simpl in *.
    rewrite elem_of_app. tauto.
Qed.

Lemma stale_state_step now key h :
  state_record h = true ->
  state_record (_on_key_press cfg now key h).1 = true
  /\ OnPress ∉ (_on_key_press cfg now key h).2.
Proof.
  intros Hst. unfold _on_key_press.
  destruct (_get_key_name key) as [n|]; [|split; [done|apply not_elem_of_nil]].
  destruct (truthy n); [|split; [done|apply not_elem_of_nil]].
  simpl. rewrite Hst, andb_false_r.
  destruct (_is_tts_hotkey_pressed cfg _ && _);
    [|split; [done|apply not_elem_of_nil]].
  destruct (Qltb _ _); [|split; [done|apply not_elem_of_nil]].
  split; [done|]. by apply fire_other.
Qed.

(** X6. [stop] empties the set of pressed keys and keeps the chord
    states: if the record chord was active when the listener was
    stopped, key presses alone never fire the press callback
    afterwards. *)
Theorem stop_keeps_record_state ps h :
  state_record h = true ->
  pressed_keys (HotkeyHandler.stop h) = ∅
  /\ OnPress ∉ (run cfg (presses ps) (HotkeyHandler.stop h)).2.
Proof.
  intros Hst. split; [done|].
  assert (Hs : state_record (HotkeyHandler.stop h) = true) by done.
  revert Hs. generalize (HotkeyHandler.stop h). clear Hst h.
  induction ps as [|[now key] ps IH]; intros h Hst; simpl.
  - apply not_elem_of_nil.
  - destruct (stale_state_step now key h Hst) as [H1 Hout].
    destruct (_on_key_press cfg now key h) as [h1 out1]. simpl in *.
    specialize (IH h1 H1). unfold presses in IH.
    destruct (run cfg _ h1) as [h2 out2]. simpl in *.
    rewrite elem_of_app. tauto.
Qed.

End ChordTraces.

(** ** The recorder over whole captures *)

Section Captures.
Import Config AudioRecorder.
Variable cfg : Config.

Lemma stream_deliver_all_snoc blocks b r :
  stream_deliver_all (blocks ++ [b]) r = stream_deliver b (stream_deliver_all blocks r).
Proof. unfold stream_deliver_all. by rewrite foldl_app. Qed.

Lemma stream_deliver_all_flags blocks r :
  is_recording (stream_deliver_all blocks r) = is_recording r
  /\ start_time (stream_deliver_all blocks r) = start_time r
  /\ recording_thread (stream_deliver_all blocks r) = recording_thread r.
Proof.
  induction blocks as [|b blocks IH] using rev_ind; [done|].
  rewrite stream_deliver_all_snoc. destruct IH as (Hr & Hs & Ht).
  unfold stream_deliver, audio_callback.
  destruct (recording_thread (stream_deliver_all blocks r)) eqn:Et;
    rewrite ?Et; auto.
  destruct (is_recording (stream_deliver_all blocks r)) eqn:Er;
    simpl; rewrite ?Et, ?Er; auto.
Qed.

(** X7. While the stream is open and the recorder is recording, the
    blocks the stream delivers are appended to the captured frames in
    the order of delivery, none lost and none repeated. *)
Theorem frames_appended_in_order blocks r :
  recording_thread r = InStream -> is_recording r = true ->
  audio_data (stream_deliver_all blocks r) = audio_data r ++ blocks.
Proof.
  intros Hthr Hrec.
  assert (Hall : audio_data (stream_deliver_all blocks r) = audio_data r ++ blocks
                 /\ recording_thread (stream_deliver_all blocks r) = InStream
                 /\ is_recording (stream_deliver_all blocks r) = true);
    [|by destruct Hall].
  induction blocks as [|b blocks IH] using rev_ind.
  - by rewrite app_nil_r.
  - rewrite stream_deliver_all_snoc.
    destruct IH as (Hd & Ht & Hr).
    unfold stream_deliver, audio_callback. rewrite Ht, Hr. simpl.
    by rewrite Hd, app_assoc.
Qed.

Lemma stream_deliver_all_stopped blocks r :
  is_recording r = false -> stream_deliver_all blocks r = r.
Proof.
  intros Hrec. unfold stream_deliver_all.
  induction blocks as [|b blocks IH] using rev_ind; [done|].
  rewrite foldl_app. simpl. rewrite IH.
  unfold stream_deliver, audio_callback. rewrite Hrec.
  by destruct (recording_thread r).
Qed.

Lemma stop_recording_state now temp_filename r :
  is_recording (stop_recording cfg now temp_filename r).1.2 = false
  /\ audio_data (stop_recording cfg now temp_filename r).1.2 = audio_data r
  /\ start_time (stop_recording cfg now temp_filename r).1.2 = start_time r
  /\ recording_thread (stop_recording cfg now temp_filename r).1.2
     = recording_thread r.
Proof.
  unfold stop_recording.
  destruct (is_recording r) eqn:Hrec; simpl; [|done].
  destruct (Qltb _ _); [done|].
  destruct (negb (truthy (audio_data r))); [done|].
  by destruct temp_filename.
Qed.

(** X8. Once [stop_recording] has run, whatever it returned, blocks the
    stream still delivers are dropped: the captured frames stay as they
    were when the stop was asked for. *)
Theorem frames_after_stop_dropped now temp_filename blocks r :
  audio_data (stream_deliver_all blocks (stop_recording cfg now temp_filename r).1.2)
  = audio_data r.
Proof.
  destruct (stop_recording_state now temp_filename r) as (Hrec & Hdata & _).
  by rewrite stream_deliver_all_stopped.
Qed.

(** X9. [stop_recording] returns a file exactly when a recording is in
    progress, the measured duration has reached
    [min_recording_duration], at least one frame was captured and the
    file could be written; the file then receives the captured frames
    joined in order, at the configured sample rate. *)
Theorem stop_recording_returns_file now temp_filename f r :
  ((stop_recording cfg now temp_filename r).1.1 = Some f
   <-> is_recording r = true
       /\ (min_recording_duration cfg <= now - start_time r)%Q
       /\ audio_data r <> [] /\ temp_filename = Some f)
  /\ ((stop_recording cfg now temp_filename r).1.1 = Some f ->
      WriteWav f (sample_rate cfg) (concat (audio_data r))
      ∈ (stop_recording cfg now temp_filename r).2).
Proof.
  unfold stop_recording.
  destruct (is_recording r); simpl;
    [|split; [split|]; [done|by intros (? & _)|done]].
  destruct (Qltb _ _) eqn:Hq; simpl.
  { apply Qltb_lt in Hq. split; [split|]; [done| |done].
    intros (_ & Hge & _). lra. }
  apply Qltb_ge in Hq.
  destruct (audio_data r) as [|b d] eqn:Hd; simpl;
    [split; [split|]; [done|by intros (_ & _ & ? & _)|done]|].
  destruct temp_filename as [g|]; simpl;
    [|split; [split|]; [done|by intros (_ & _ & _ & ?)|done]].
  split; [split|].
  - intros [= ->]. done.
  - intros (_ & _ & _ & [= ->]). done.
  - intros [= ->]. unfold concatenate.
    rewrite elem_of_app. right. apply list_elem_of_here.
Qed.

(** X10. A second [stop_recording] finds no recording: it returns
    [None], has no effect and changes nothing. *)
Theorem stop_recording_twice now now' temp_filename temp_filename' r :
  stop_recording cfg now' temp_filename' (stop_recording cfg now temp_filename r).1.2
  = (None, (stop_recording cfg now temp_filename r).1.2, []).
Proof.
  destruct (stop_recording_state now temp_filename r) as (Hrec & _).
  unfold stop_recording at 1. by rewrite Hrec.
Qed.

End Captures.

(** ** Python's strip on the model *)

Section Strip.
Import PyStr TextCleaning.
Context {RT : PyRuntime}.

Lemma lstrip_clean_head s : clean_head (lstrip s).
Proof.
  induction s as [|c s IH]; simpl; [done|].
  destruct (chr_isspace c) eqn:E; [done|]. simpl. done.
Qed.

Lemma lstrip_id s : clean_head s -> lstrip s = s.
Proof. destruct s as [|c s]; simpl; [done|]. by intros ->. Qed.

Lemma lstrip_suffix s : exists pre, s = pre ++ lstrip s.
Proof.
  induction s as [|c s [pre IH]]; simpl; [by exists []|].
  destruct (chr_isspace c).
  - exists (c :: pre). simpl. by rewrite <- IH.
  - by exists [].
Qed.

Lemma strip_clean s : clean_head (strip s) /\ clean_head (rev (strip s)).
Proof.
  unfold strip. rewrite rev_involutive. split; [|apply lstrip_clean_head].
  destruct (lstrip_suffix (rev (lstrip s))) as [pre Hpre].
  pose proof (lstrip_clean_head s) as Ha.
  apply (f_equal (@rev N)) in Hpre.
  rewrite rev_involutive, rev_app_distr in Hpre.
  destruct (rev (lstrip (rev (lstrip s)))) as [|c b]; [done|].
  rewrite Hpre in Ha. exact Ha.
Qed.

Lemma strip_id s : clean_head s -> clean_head (rev s) -> strip s = s.
Proof.
  intros H1 H2. unfold strip.
  by rewrite (lstrip_id s H1), (lstrip_id _ H2), rev_involutive.
Qed.

Lemma strip_strip s : strip (strip s) = strip s.
Proof. apply strip_id; apply strip_clean. Qed.

Lemma lstrip_elem x s : x ∈ lstrip s -> x ∈ s.
Proof.
  destruct (lstrip_suffix s) as [pre Hpre]. intros Hx.
  rewrite Hpre, elem_of_app. by right.
Qed.

Lemma strip_elem x s : x ∈ strip s -> x ∈ s.
Proof.
  unfold strip. intros Hx.
  apply list_elem_of_In, in_rev, list_elem_of_In, lstrip_elem in Hx.
  apply list_elem_of_In, in_rev, list_elem_of_In in Hx.
  by apply lstrip_elem.
Qed.

End Strip.

(** ** The transcriber over several calls *)

Section ModelUse.
Import Transcriber ServiceTrace.
Context {RT : PyRuntime}.

(** X11. A model that was loaded and not used yet ([last_used] still 0)
    is left loaded by every check of the unloader, whatever the clock
    says: the unloader never takes the model away between its load and
    its first use. *)
Theorem unused_model_survives_checks times load_seconds m t :
  model t = None -> last_used t = 0%Q ->
  unloader_checks times (_ensure_model_loaded (Some m) load_seconds t).2
  = (_ensure_model_loaded (Some m) load_seconds t).2.
Proof.
  intros Habs Hused. unfold _ensure_model_loaded. rewrite Habs. simpl.
  unfold unloader_checks.
  induction times as [|now times IH] using rev_ind; [done|].
  rewrite foldl_app. simpl. rewrite IH.
  unfold _model_unloader_check. simpl. by rewrite Hused.
Qed.

(** X12. After a [transcribe] that had a model to work with, a check of
    the unloader made no more than 300 seconds after that call leaves
    the model loaded. *)
Theorem used_model_survives_within_threshold
    load load_seconds used_at result_text audio_file now t :
  is_model_loaded t = true \/ is_Some load ->
  (now - used_at <= 300)%Q ->
  let t' := (transcribe load load_seconds used_at result_text audio_file t).1.2 in
  is_model_loaded t' = true /\ last_used t' = used_at
  /\ _model_unloader_check now t' = t'.
Proof.
  intros Hm Hnow. simpl.
  assert (Hl : exists t1 m1, _ensure_model_loaded load load_seconds t = (true, t1)
                 /\ model t1 = Some m1).
  { unfold _ensure_model_loaded, is_model_loaded in *.
    destruct (model t) as [m0|] eqn:Hmt; [by exists t, m0|].
    destruct Hm as [?|[m1 ->]]; [done|]. by eexists _, m1. }
  destruct Hl as (t1 & m1 & He & Hm1).
  unfold transcribe. rewrite He. simpl.
  assert (Hgoal : is_model_loaded (set_last_used used_at t1) = true
            /\ last_used (set_last_used used_at t1) = used_at
            /\ _model_unloader_check now (set_last_used used_at t1)
               = set_last_used used_at t1).
  { unfold is_model_loaded, _model_unloader_check. simpl.
    rewrite Hm1. repeat split.
    apply Qltb_ge in Hnow. rewrite Hnow. by rewrite andb_false_r. }
  destruct result_text; simpl; exact Hgoal.
Qed.

(** X13. A text returned by [transcribe] is not empty and neither begins
    nor ends with whitespace: stripping it again gives it back. *)
Theorem transcribe_result_stripped
    load load_seconds now result_text audio_file t text :
  (transcribe load load_seconds now result_text audio_file t).1.1 = Some text ->
  truthy text = true /\ PyStr.strip text = text.
Proof.
  unfold transcribe.
  destruct (_ensure_model_loaded load load_seconds t) as [[] t1]; simpl; [|done].
  destruct result_text as [raw|]; simpl; [|done].
  destruct (truthy (PyStr.strip raw)) eqn:Ht; [|done].
  intros [= <-]. split; [done|apply strip_strip].
Qed.

(** X14. [transcribe] removes the audio file exactly when a model was
    available and the inference returned; when loading or the inference
    fails the temporary file is left behind. *)
Theorem transcribe_removes_file load load_seconds now result_text audio_file t :
  (transcribe load load_seconds now result_text audio_file t).2
  = if (is_model_loaded t || bool_decide (is_Some load))
       && bool_decide (is_Some result_text)
    then [Unlink audio_file] else [].
Proof.
  unfold transcribe, _ensure_model_loaded, is_model_loaded.
  destruct (model t); simpl.
  - by destruct result_text.
  - destruct load; simpl; [|done]. by destruct result_text.
Qed.

End ModelUse.

(** ** What cleaning leaves in a text *)

Section Cleaning.
Import PyStr TextToSpeech TextCleaning.
Context {RT : PyRuntime}.

Lemma replace_from_elem old new skip s x :
  x ∈ replace_from old new skip s -> x ∈ new \/ x ∈ s.
Proof.
  revert skip. induction s as [|a s IH]; intros skip; simpl.
  - by right.
  - destruct skip as [|k].
    + destruct (startswith old (a :: s)).
      * rewrite elem_of_app. intros [Hx|Hx]; [by left|].
        destruct (IH _ Hx) as [?|?]; [by left|right; by apply list_elem_of_further].
      * rewrite elem_of_cons. intros [->|Hx]; [right; apply list_elem_of_here|].
        destruct (IH _ Hx) as [?|?]; [by left|right; by apply list_elem_of_further].
    + intros Hx. destruct (IH _ Hx) as [?|?];
        [by left|right; by apply list_elem_of_further].
Qed.

Lemma replace_elem old new s x : x ∈ replace old new s -> x ∈ new \/ x ∈ s.
Proof.
  unfold replace. destruct old as [|o old]; [|apply replace_from_elem].
  rewrite elem_of_app. intros [Hx|Hx]; [by left|].
  apply list_elem_of_In, in_concat in Hx as (l & Hl & Hx).
  apply list_elem_of_In, list_elem_of_fmap in Hl as (c & -> & Hc).
  apply list_elem_of_In, elem_of_cons in Hx as [->|Hx]; [by right|by left].
Qed.

Lemma replace_absent old new s c : c ∉ new -> c ∉ s -> c ∉ replace old new s.
Proof. intros Hn Hs Hx. apply replace_elem in Hx. tauto. Qed.

Lemma replace_single_absent c new s : c ∉ new -> c ∉ replace [c] new s.
Proof.
  intros Hn. unfold replace.
  induction s as [|a s IH]; simpl; [apply not_elem_of_nil|].
  destruct (bool_decide (c = a)) eqn:E; simpl.
  - rewrite elem_of_app. tauto.
  - apply bool_decide_eq_false in E. rewrite elem_of_cons. intros [?|?]; tauto.
Qed.

Lemma startswith_elem p s x : startswith p s = true -> x ∈ p -> x ∈ s.
Proof.
  revert s. induction p as [|a p IH]; intros s; [by intros _ ?%elem_of_nil|].
  destruct s as [|b s]; simpl; [done|].
  intros [Hab Hps]%andb_true_iff. apply bool_decide_eq_true in Hab as ->.
  rewrite !elem_of_cons. intros [->|Hx]; [by left|right; by apply IH].
Qed.

(** A pattern with a character the text does not have is not found. *)
Lemma replace_missing old new s c : c ∈ old -> c ∉ s -> replace old new s = s.
Proof.
  intros Hc Hs. unfold replace.
  destruct old as [|o old]; [by apply elem_of_nil in Hc|].
  induction s as [|a s IH]; [done|].
  cbn [replace_from].
  destruct (startswith (o :: old) (a :: s)) eqn:E.
  - exfalso. apply Hs. by apply (startswith_elem _ _ _ E).
  - f_equal. apply IH. intros Hx. apply Hs. by apply list_elem_of_further.
Qed.

Lemma contains_single c s : contains [c] s = true <-> c ∈ s.
Proof.
  induction s as [|a s IH]; simpl.
  - split; [done|by intros ?%elem_of_nil].
  - rewrite orb_true_iff, andb_true_r, bool_decide_eq_true, IH, elem_of_cons.
    split; intros [?|?]; auto.
Qed.

Lemma fold_cleared table c known text :
  cleared c known table = true -> (known = true -> c ∉ text) ->
  c ∉ foldl (fun acc sr => replace sr.1 sr.2 acc) text table.
Proof.
  revert known text. induction table as [|[old new] table IH];
    intros known text Hcl Hk; simpl in *.
  - by apply Hk.
  - apply (IH _ _ Hcl). intros [Hkh Hnew]%andb_true_iff.
    apply negb_true_iff, bool_decide_eq_false in Hnew.
    apply orb_true_iff in Hkh as [Hknown|Hhit].
    + apply replace_absent; [done|by apply Hk].
    + apply bool_decide_eq_true in Hhit as ->. by apply replace_single_absent.
Qed.

Lemma split_from_elem cur s w x :
  w ∈ split_from cur s -> x ∈ w -> x ∈ cur \/ x ∈ s.
Proof.
  revert cur. induction s as [|c s IH]; intros cur; simpl.
  - destruct (truthy cur); [|by intros ?%elem_of_nil].
    intros ->%list_elem_of_singleton Hx.
    left. by apply list_elem_of_In, in_rev, list_elem_of_In in Hx.
  - assert (Hrest : w ∈ split_from [] s -> x ∈ w -> x ∈ cur \/ x ∈ c :: s).
    { intros Hw Hx. destruct (IH _ Hw Hx) as [?%elem_of_nil|?]; [done|].
      right. by apply list_elem_of_further. }
    destruct (chr_isspace c).
    + destruct (truthy cur); [|done].
      rewrite elem_of_cons. intros [->|Hw] Hx; [|by apply Hrest].
      left. by apply list_elem_of_In, in_rev, list_elem_of_In in Hx.
    + intros Hw Hx. destruct (IH _ Hw Hx) as [Hc|?].
      * apply elem_of_cons in Hc as [->|?]; [right; apply list_elem_of_here|by left].
      * right. by apply list_elem_of_further.
Qed.

Lemma join_elem sep parts x :
  x ∈ join sep parts -> x ∈ sep \/ exists p, p ∈ parts /\ x ∈ p.
Proof.
  induction parts as [|p parts IH]; [by intros ?%elem_of_nil|].
  destruct parts as [|q parts].
  - simpl. intros Hx. right. exists p. split; [apply list_elem_of_here|done].
  - change (join sep (p :: q :: parts)) with (p ++ sep ++ join sep (q :: parts)).
    rewrite !elem_of_app. intros [Hx|[Hx|Hx]].
    + right. exists p. split; [apply list_elem_of_here|done].
    + by left.
    + destruct (IH Hx) as [?|(p' & Hp' & Hxp)]; [by left|].
      right. exists p'. split; [by apply list_elem_of_further|done].
Qed.

Lemma normalize_spaces_absent c text :
  c <> 32%N -> c ∉ text -> c ∉ normalize_spaces text.
Proof.
  intros Hc Ht Hx. unfold normalize_spaces in Hx.
  apply join_elem in Hx as [Hx|(w & Hw & Hx)].
  - apply list_elem_of_singleton in Hx. done.
  - destruct (split_from_elem _ _ _ _ Hw Hx) as [?%elem_of_nil|?]; done.
Qed.

Lemma handle_urls_absent c text : c ∉ text -> c ∉ handle_urls text.
Proof.
  intros Ht. unfold handle_urls. destruct (contains _ _); [|done].
  repeat (apply replace_absent; [apply not_elem_of_nil|]). done.
Qed.

Lemma handle_emails_no_at text : 64%N ∉ text -> handle_emails text = text.
Proof.
  intros Ht. unfold handle_emails.
  destruct (contains (py "@") text) eqn:E; [|done].
  change (py "@") with [64%N] in E. apply contains_single in E. done.
Qed.

Lemma remove_markdown_absent c text : c ∉ text -> c ∉ remove_markdown text.
Proof.
  intros Ht. unfold remove_markdown.
  repeat (apply replace_absent; [apply not_elem_of_nil|]). done.
Qed.

Lemma clean_text_passes text :
  _clean_text text
  = if negb (truthy text) then []
    else strip (normalize_spaces (remove_markdown (handle_emails
           (handle_urls (replace_symbols (normalize_spaces text)))))).
Proof. reflexivity. Qed.

(** Every character of a replaced symbol is sure to be gone after the
    loop over the table, and is not the space. *)
Lemma replacements_cleared :
  forallb (fun sr : pystr * pystr =>
             forallb (fun c => cleared c false replacements && negb (c =? 32)%N) sr.1)
    replacements = true.
Proof. vm_compute. reflexivity. Qed.

(** X15. The cleaned text contains none of the symbols of the
    replacement table: each has been spelled out in words. *)
Theorem clean_text_has_no_replaced_symbol text symbol replacement c :
  (symbol, replacement) ∈ replacements -> c ∈ symbol ->
  c ∉ _clean_text text.
Proof.
  intros Hsr Hc.
  pose proof replacements_cleared as Hall.
  rewrite forallb_forall in Hall.
  apply list_elem_of_In in Hsr. specialize (Hall _ Hsr).
  cbv beta iota delta [fst] in Hall.
  rewrite forallb_forall in Hall.
  apply list_elem_of_In in Hc. specialize (Hall _ Hc).
  cbv beta in Hall.
  apply andb_true_iff in Hall as [Hcl Hsp].
  apply negb_true_iff, N.eqb_neq in Hsp.
  assert (H64 : cleared 64 false replacements = true) by (vm_compute; reflexivity).
  rewrite clean_text_passes.
  destruct (negb (truthy text)); [apply not_elem_of_nil|].
  intros Hx%strip_elem. revert Hx.
  apply normalize_spaces_absent; [done|].
  apply remove_markdown_absent.
  rewrite handle_emails_no_at.
  - apply handle_urls_absent. by apply (fold_cleared _ _ false).
  - apply handle_urls_absent. by apply (fold_cleared _ _ false).
Qed.

(** X16. The cleaned text contains no underscore. *)
Theorem clean_text_has_no_underscore text : 95%N ∉ _clean_text text.
Proof.
  rewrite clean_text_passes.
  destruct (negb (truthy text)); [apply not_elem_of_nil|].
  intros Hx%strip_elem. revert Hx.
  apply normalize_spaces_absent; [done|].
  unfold remove_markdown.
  do 4 (apply replace_absent; [apply not_elem_of_nil|]).
  change (py "_") with [95%N]. apply replace_single_absent, not_elem_of_nil.
Qed.

(** X17. The removal of the URL schemes and the e-mail pass never change
    a text: the loop over the table has already spelled out every slash
    and every at sign.  Cleaning comes down to normalizing the spaces,
    replacing the symbols, removing [www.] when the text mentions http,
    removing the markdown marks, and normalizing and stripping again. *)
Theorem clean_text_dead_passes text :
  _clean_text text
  = if negb (truthy text) then []
    else
      let spelled := replace_symbols (normalize_spaces text) in
      strip (normalize_spaces (remove_markdown
        (if contains (py "http") (str_lower spelled)
         then replace (py "www.") [] spelled else spelled))).
Proof.
  rewrite clean_text_passes.
  destruct (negb (truthy text)); [reflexivity|]. cbv zeta.
  set (spelled := replace_symbols (normalize_spaces text)).
  assert (H64 : 64%N ∉ spelled).
  { apply (fold_cleared _ _ false); [vm_compute; reflexivity|done]. }
  assert (H47 : 47%N ∉ spelled).
  { apply (fold_cleared _ _ false); [vm_compute; reflexivity|done]. }
  rewrite handle_emails_no_at by by apply handle_urls_absent.
  unfold handle_urls. destruct (contains _ _); [|done].
  assert (Hs : 47%N ∈ py "https://")
    by (apply list_elem_of_In; vm_compute; tauto).
  assert (Hp : 47%N ∈ py "http://")
    by (apply list_elem_of_In; vm_compute; tauto).
  rewrite (replace_missing (py "https://") [] spelled 47 Hs H47).
  by rewrite (replace_missing (py "http://") [] spelled 47 Hp H47).
Qed.

End Cleaning.

(** ** Speech jobs and the selection *)

Section SpeechJobs.
Import PyStr TextToSpeech SelectedText TextCleaning.
Context {RT : PyRuntime}.

(** X18. A stop requested while a worker is still generating speech
    keeps that worker from starting playback: the mixer stays silent. *)
Theorem stop_before_playback t :
  is_speaking t = true ->
  _play_audio_start (stop_speech t).1 = (stop_speech t).1
  /\ mixer_busy (_play_audio_start (stop_speech t).1) = false.
Proof.
  intros Hsp. unfold stop_speech. rewrite Hsp. simpl.
  destruct (mixer_busy t) eqn:Hbusy; simpl;
    destruct (speech_thread t && speech_thread_alive t); simpl;
    unfold _play_audio_start; simpl; rewrite ?Hbusy; done.
Qed.

Lemma speak_text_jobs text t :
  speech_jobs (speak_text text t).2 = []
  \/ exists spoken, speech_jobs (speak_text text t).2 = [spoken]
                    /\ (length spoken <= 500)%nat.
Proof.
  unfold speak_text.
  destruct (negb (truthy text) || negb (truthy (strip text))); [by left|].
  pose proof (stop_speech_no_jobs t) as Hstop.
  destruct (stop_speech t) as [t1 e1]. simpl in Hstop.
  destruct (negb (truthy (_clean_text text))); simpl; [by left|].
  right. eexists. unfold speech_jobs in *. rewrite omap_app, Hstop.
  split; [reflexivity|].
  destruct (500 <? length (_clean_text text))%nat eqn:Hlen.
  - apply Nat.ltb_lt in Hlen. rewrite length_app, length_take.
    change (length (py "...")) with 3%nat. lia.
  - by apply Nat.ltb_ge in Hlen.
Qed.

(** X19. [speak_selected_text] starts a speech worker only when text is
    selected and nothing is being spoken; it starts at most one, with a
    text of at most 500 characters. *)
Theorem selected_text_job selected_text t :
  (speech_jobs (speak_selected_text selected_text t).2 <> [] ->
     truthy_opt selected_text = true /\ is_speaking t = false)
  /\ (length (speech_jobs (speak_selected_text selected_text t).2) <= 1)%nat
  /\ Forall (fun spoken => (length spoken <= 500)%nat)
       (speech_jobs (speak_selected_text selected_text t).2).
Proof.
  pose proof (stop_speech_no_jobs t) as Hstop.
  unfold speak_selected_text.
  destruct selected_text as [sel|]; simpl;
    [|rewrite Hstop; split; [done|split; [simpl; lia|constructor]]].
  destruct (truthy sel);
    [|rewrite Hstop; split; [done|split; [simpl; lia|constructor]]].
  destruct (is_speaking t);
    [rewrite Hstop; split; [done|split; [simpl; lia|constructor]]|].
  destruct (truthy (_clean_text sel));
    [|split; [done|split; [simpl; lia|constructor]]].
  destruct (speak_text_jobs (_clean_text sel) t) as [->|(spoken & -> & Hlen)].
  - split; [done|split; [simpl; lia|constructor]].
  - split; [done|split; [simpl; lia|]].
    apply List.Forall_cons; [exact Hlen|apply List.Forall_nil].
Qed.

Lemma copy_attempt_stripped original pasted text :
  copy_attempt original pasted = Some text ->
  truthy text = true /\ strip text = text.
Proof.
  unfold copy_attempt. destruct pasted as [current|]; [|done].
  destruct (truthy current && _); simpl; [|done].
  destruct (truthy (strip current)) eqn:Ht; [|done].
  intros [= <-]. split; [done|apply strip_strip].
Qed.

Lemma copy_attempts_stripped original paste text :
  copy_attempts original paste = Some text ->
  truthy text = true /\ strip text = text.
Proof.
  unfold copy_attempts. simpl.
  destruct (copy_attempt original (paste 0%nat)) eqn:E0;
    [intros [= <-]; by eapply copy_attempt_stripped|].
  destruct (copy_attempt original (paste 1%nat)) eqn:E1;
    [intros [= <-]; by eapply copy_attempt_stripped|].
  destruct (copy_attempt original (paste 2%nat)) eqn:E2;
    [intros [= <-]; by eapply copy_attempt_stripped|done].
Qed.

(** X20. A text returned by [get_selected_text] is not empty and neither
    begins nor ends with whitespace. *)
Theorem selected_text_stripped original xclip clear_ok paste text :
  (get_selected_text original xclip clear_ok paste).1 = Some text ->
  truthy text = true /\ strip text = text.
Proof.
  unfold get_selected_text.
  destruct (xclip_selection xclip) as [sel|] eqn:Ex; simpl.
  - intros [= <-]. unfold xclip_selection in Ex.
    destruct xclip as [[rc out]|]; [|done].
    destruct (rc =? 0)%Z; simpl in Ex; [|done].
    destruct (truthy (strip out)) eqn:Ht; [|done].
    injection Ex as <-. split; [done|apply strip_strip].
  - destruct clear_ok; simpl; [|done].
    destruct (copy_attempts _ paste) as [found|] eqn:Ec; simpl; [|done].
    intros [= <-]. by eapply copy_attempts_stripped.
Qed.

(** X21. When xclip gives nothing and every copy attempt reads back
    the text the clipboard held before, no selection is found: a
    selection equal to the old clipboard content is not noticed. *)
Theorem selection_equal_to_clipboard_missed original xclip clear_ok :
  xclip_selection xclip = None ->
  (get_selected_text original xclip clear_ok
     (fun _ => Some (default [] original))).1 = None.
Proof.
  intros Hx. unfold get_selected_text. rewrite Hx.
  destruct clear_ok; [|reflexivity].
  assert (Hc : copy_attempts (default [] original)
                 (fun _ => Some (default [] original)) = None).
  { unfold copy_attempts, copy_attempt. simpl.
    rewrite bool_decide_eq_true_2 by reflexivity.
    by rewrite andb_false_r. }
  by rewrite Hc.
Qed.

(** X22. The text the clipboard held before is written back exactly
    when no selection was found: after a selection has been returned by
    the copy attempts the clipboard keeps the copied selection. *)
Theorem clipboard_restored_only_on_failure original xclip clear_ok paste :
  truthy (default [] original) = true ->
  ClipboardCopy (default [] original)
    ∈ (get_selected_text original xclip clear_ok paste).2
  <-> (get_selected_text original xclip clear_ok paste).1 = None.
Proof.
  intros Hor. unfold get_selected_text.
  assert (Hne : ClipboardCopy (default [] original) <> ClipboardCopy []).
  { intros [= Heq]. rewrite Heq in Hor. discriminate. }
  destruct (xclip_selection xclip); simpl.
  { split; [by intros ?%elem_of_nil|done]. }
  destruct clear_ok; simpl.
  - destruct (copy_attempts _ paste); simpl.
    + split; [|done]. by intros ?%list_elem_of_singleton.
    + rewrite Hor. split; [done|]. intros _.
      apply list_elem_of_further, list_elem_of_here.
  - rewrite Hor. split; [done|]. intros _. apply list_elem_of_here.
Qed.

End SpeechJobs.

(** ** The service over whole cycles *)

Section Cycles.
Import Config Service ServiceTrace.
Context {RT : PyRuntime} (cfg : Config).

(** X23. [_process_audio] leaves [is_processing] as it found it: a call
    made while a transcription is being processed does nothing at all,
    and a call that runs clears the flag on its way out whatever the
    transcription gave; the recorder and [is_running] are not touched. *)
Theorem process_audio_restores_flag
    load load_seconds now result_text inserted audio_file s :
  let r := _process_audio cfg load load_seconds now result_text inserted audio_file s in
  is_processing r.1 = is_processing s
  /\ is_running r.1 = is_running s
  /\ audio_recorder r.1 = audio_recorder s
  /\ (is_processing s = true -> r = (s, [])).
Proof.
  unfold _process_audio, _process_audio_enter.
  destruct (is_processing s) eqn:Hp; simpl; [by rewrite Hp|].
  unfold _process_audio_run.
  destruct (Transcriber.transcribe _ _ _ _ _ _) as [[text t] e1]. simpl.
  done.
Qed.

Lemma typed_notify title message : typed (notify cfg title message) = [].
Proof. unfold notify. by destruct (show_notifications cfg). Qed.

Lemma typed_app es es' : typed (es ++ es') = typed es ++ typed es'.
Proof. apply omap_app. Qed.

(** X24. One run of [_process_audio] has at most one successful call of
    [insert_text]: it is made with the stripped transcription when no
    other transcription is being processed, a model is available, the
    inference returns a text that is not blank and the insertion
    succeeds; otherwise there is none. *)
Theorem process_audio_types_once
    load load_seconds now result_text inserted audio_file s :
  typed (_process_audio cfg load load_seconds now result_text inserted audio_file s).2
  = if negb (is_processing s) && inserted
       && (Transcriber.is_model_loaded (transcriber s) || bool_decide (is_Some load))
    then match result_text with
         | Some raw => if truthy (PyStr.strip raw) then [PyStr.strip raw] else []
         | None => []
         end
    else [].
Proof.
  unfold _process_audio, _process_audio_enter.
  destruct (is_processing s); simpl; [done|].
  unfold _process_audio_run, Transcriber.transcribe,
    Transcriber._ensure_model_loaded, Transcriber.is_model_loaded. simpl.
  assert (Hn : forall title message rest,
            typed (notify cfg title message ++ rest) = typed rest).
  { intros. by rewrite typed_app, typed_notify. }
  destruct (Transcriber.model (transcriber s)); simpl.
  - destruct result_text as [raw|]; simpl.
    + destruct (truthy (PyStr.strip raw)); simpl; rewrite Hn; simpl.
      * destruct inserted; simpl; [|by rewrite typed_notify].
        by destruct (show_notifications cfg).
      * rewrite typed_notify. by destruct inserted.
    + rewrite Hn. simpl. rewrite typed_notify. by destruct inserted.
  - destruct load; simpl.
    + destruct result_text as [raw|]; simpl.
      * destruct (truthy (PyStr.strip raw)); simpl; rewrite Hn; simpl.
        -- destruct inserted; simpl; [|by rewrite typed_notify].
           by destruct (show_notifications cfg).
        -- rewrite typed_notify. by destruct inserted.
      * rewrite Hn. simpl. rewrite typed_notify. by destruct inserted.
    + rewrite Hn. simpl. rewrite typed_notify. by rewrite andb_false_r.
Qed.

(** X25. After [stop] the service reacts to no hotkey: the record press,
    the record release and the speak press leave it as it is and have
    no effect, and a second [stop] does nothing. *)
Theorem stopped_service_is_inert
    now temp_filename thread_ok now' temp_filename' s :
  let s' := (Service.stop cfg now temp_filename s).1 in
  is_running s' = false
  /\ _on_hotkey_press cfg thread_ok now' s' = (s', [])
  /\ _on_hotkey_release cfg now' temp_filename' s' = (s', [])
  /\ _on_tts_hotkey_press s' = (s', [])
  /\ Service.stop cfg now' temp_filename' s' = (s', []).
Proof.
  simpl.
  assert (Hrun : is_running (Service.stop cfg now temp_filename s).1 = false).
  { unfold Service.stop. destruct (is_running s) eqn:Hr; simpl; [|done].
    destruct (AudioRecorder.is_recording_active _); [|done].
    by destruct (AudioRecorder.stop_recording _ _ _ _) as [[? ?] ?]. }
  revert Hrun. generalize (Service.stop cfg now temp_filename s).1.
  intros s' Hrun.
  unfold _on_hotkey_press, _on_hotkey_release, _on_tts_hotkey_press, Service.stop.
  by rewrite Hrun.
Qed.

(** X26. A whole capture: with the service running, no transcription
    being processed and the recorder idle, a record press at [t0], the
    stream opening and delivering at least one block, and a release
    measured at least [min_recording_duration] later give one processing
    thread, for the file that received the delivered blocks joined in
    order; the recorder is idle again. *)
Theorem capture_cycle_hands_off t0 now blocks f s :
  is_running s = true -> is_processing s = false ->
  AudioRecorder.is_recording (audio_recorder s) = false ->
  blocks <> [] -> truthy f = true ->
  (min_recording_duration cfg <= now - t0)%Q ->
  let pressed := (_on_hotkey_press cfg true t0 s).1 in
  let captured :=
    with_recorder (fun r => AudioRecorder.stream_deliver_all blocks
                              (AudioRecorder._record_audio_open true r)) pressed in
  let released := _on_hotkey_release cfg now (Some f) captured in
  WriteWav f (sample_rate cfg) (concat blocks) ∈ released.2
  /\ StartProcessingThread f ∈ released.2
  /\ AudioRecorder.is_recording (audio_recorder released.1) = false.
Proof.
  intros Hrun Hproc Hidle Hblocks Hf Hdur. simpl.
  unfold _on_hotkey_press. rewrite Hrun, Hproc. simpl.
  unfold AudioRecorder.start_recording. rewrite Hidle. simpl.
  unfold with_recorder. simpl.
  set (r0 := AudioRecorder._record_audio_open true _).
  assert (Hd : AudioRecorder.audio_data (AudioRecorder.stream_deliver_all blocks r0)
               = blocks).
  { by rewrite frames_appended_in_order. }
  destruct (stream_deliver_all_flags blocks r0) as (Hr & Hs & _).
  change (AudioRecorder.is_recording r0) with true in Hr.
  change (AudioRecorder.start_time r0) with t0 in Hs.
  unfold _on_hotkey_release. simpl. rewrite Hrun.
  unfold AudioRecorder.is_recording_active. rewrite Hr. simpl.
  unfold AudioRecorder.stop_recording. rewrite Hr. simpl. rewrite Hs, Hd.
  apply Qltb_ge in Hdur. rewrite Hdur.
  destruct blocks as [|b blocks']; [done|]. simpl. rewrite Hf. simpl.
  rewrite !elem_of_app, !elem_of_cons.
  repeat split; auto 10.
Qed.

(** X27. When the input stream cannot be opened after a record press,
    the recording thread clears [is_recording] and the release handler
    then returns at once: no processing thread is started and the tray,
    told of the recording at the press, is not told of its end. *)
Theorem failed_stream_release_ignored t0 now temp_filename s :
  is_running s = true -> is_processing s = false ->
  AudioRecorder.is_recording (audio_recorder s) = false ->
  let pressed := _on_hotkey_press cfg true t0 s in
  let failed := with_recorder (AudioRecorder._record_audio_open false) pressed.1 in
  (system_tray s = true -> TraySetRecording true ∈ pressed.2)
  /\ _on_hotkey_release cfg now temp_filename failed = (failed, []).
Proof.
  intros Hrun Hproc Hidle. simpl.
  unfold _on_hotkey_press. rewrite Hrun, Hproc. simpl.
  unfold AudioRecorder.start_recording. rewrite Hidle. simpl. split.
  - intros Htray. unfold tray_set_recording. simpl. rewrite Htray.
    apply list_elem_of_further, elem_of_app. left. apply list_elem_of_here.
  - unfold _on_hotkey_release, with_recorder. simpl. rewrite Hrun.
    unfold AudioRecorder._record_audio_open. simpl. done.
Qed.

End Cycles.

(** ** The further properties on concrete runs *)

Section FurtherExamples.
Import Scenarios FurtherScenarios Config HotkeyHandler HotkeyTrace.
#[local] Existing Instance ascii_runtime.

Lemma record_state_tracks_chord_witness :
  let evs := [Press 1%Q (SpecialKey (py "ctrl_l")); Press 2%Q (SpecialKey (py "f1"))] in
  state_record HotkeyHandler.init = _is_record_hotkey_pressed config HotkeyHandler.init
  /\ state_record (run config evs HotkeyHandler.init).1
     = _is_record_hotkey_pressed config (run config evs HotkeyHandler.init).1.
Proof.
  intros evs.
  assert (H0 : state_record HotkeyHandler.init
               = _is_record_hotkey_pressed config HotkeyHandler.init)
    by (vm_compute; reflexivity).
  exact (conj H0 (record_state_tracks_chord config evs HotkeyHandler.init H0)).
Defined.

Lemma record_callbacks_alternate_witness :
  let h := listening [] in
  let evs := [Press 1%Q (SpecialKey (py "ctrl_l")); Press 2%Q (SpecialKey (py "f1"));
              Press 3%Q (SpecialKey (py "f1")); Release (SpecialKey (py "f1"));
              Press 4%Q (SpecialKey (py "f1")); Release (SpecialKey (py "ctrl_l"));
              Release (SpecialKey (py "f1"))] in
  (run config evs h).2 = [OnPress; OnRelease; OnPress; OnRelease]
  /\ alternating (state_record h) (run config evs h).2 = true.
Proof.
  intros h evs.
  assert (H0 : state_record h = _is_record_hotkey_pressed config h)
    by (vm_compute; reflexivity).
  assert (H1 : on_press_callback h = true) by reflexivity.
  assert (H2 : on_release_callback h = true) by reflexivity.
  split; [vm_compute; reflexivity|].
  exact (record_callbacks_alternate config evs h H0 H1 H2).
Defined.

Lemma active_chord_is_pressed_witness :
  let evs := [Press 1%Q (SpecialKey (py "ctrl_r")); Press 2%Q (SpecialKey (py "f2"))] in
  chord_state TtsChord (run config evs HotkeyHandler.init).1 = true
  /\ issubset (tts_hotkey config)
       (pressed_keys (run config evs HotkeyHandler.init).1) = true.
Proof.
  intros evs.
  assert (H0 : chord_state TtsChord (run config evs HotkeyHandler.init).1 = true)
    by (vm_compute; reflexivity).
  exact (conj H0 (active_chord_is_pressed config TtsChord evs H0)).
Defined.

Lemma release_then_press_rearms_witness :
  let key := SpecialKey (py "f1") in
  held config RecordChord holding
  /\ (_on_key_release config key holding).2 = [OnRelease]
  /\ (_on_key_press config 9%Q key (_on_key_release config key holding).1).2
     = [OnPress].
Proof.
  intros key.
  assert (H0 : held config RecordChord holding)
    by (split; vm_compute; reflexivity).
  assert (H1 : _get_key_name key = Some (py "f1")) by (vm_compute; reflexivity).
  assert (H2 : truthy (py "f1") = true) by reflexivity.
  assert (H3 : py "f1" ∈ hotkey config)
    by (apply list_elem_of_further, list_elem_of_here).
  destruct (release_then_press_rearms config 9%Q key (py "f1") holding H0 H1 H2 H3)
    as (Hrel & _ & Hpress & _).
  exact (conj H0 (conj Hrel Hpress)).
Defined.

Lemma held_chord_not_released_witness :
  let evs := [Press 2%Q (KeyCode (Some (py "a"))); Release (KeyCode (Some (py "a")));
              Press 3%Q (SpecialKey (py "shift_l")); Release (SpecialKey (py "shift_l"))] in
  held config RecordChord holding
  /\ OnRelease ∉ (run config evs holding).2.
Proof.
  intros evs.
  assert (H0 : held config RecordChord holding)
    by (split; vm_compute; reflexivity).
  assert (H1 : Forall (fun e => releases_chord_key config RecordChord e = false) evs)
    by (repeat constructor).
  exact (conj H0 (held_chord_not_released config evs holding H0 H1)).
Defined.

Lemma stop_keeps_record_state_witness :
  let ps := [(5%Q, SpecialKey (py "ctrl_l")); (6%Q, SpecialKey (py "f1"))] in
  state_record holding = true
  /\ _is_record_hotkey_pressed config
       (run config (presses ps) (HotkeyHandler.stop holding)).1 = true
  /\ OnPress ∉ (run config (presses ps) (HotkeyHandler.stop holding)).2.
Proof.
  intros ps.
  assert (H0 : state_record holding = true) by reflexivity.
  destruct (stop_keeps_record_state config ps holding H0) as [_ Hout].
  split; [exact H0|]. split; [vm_compute; reflexivity|exact Hout].
Defined.

Lemma frames_appended_in_order_witness :
  AudioRecorder.recording_thread streaming = AudioRecorder.InStream
  /\ AudioRecorder.audio_data
       (AudioRecorder.stream_deliver_all [[1%Q]; [2%Q; 3%Q]] streaming)
     = [[1%Q]; [2%Q; 3%Q]].
Proof.
  assert (H0 : AudioRecorder.recording_thread streaming = AudioRecorder.InStream)
    by reflexivity.
  assert (H1 : AudioRecorder.is_recording streaming = true) by reflexivity.
  exact (conj H0 (frames_appended_in_order [[1%Q]; [2%Q; 3%Q]] streaming H0 H1)).
Defined.

Lemma stop_recording_returns_file_witness :
  let r := AudioRecorder.stream_deliver_all [[1%Q]; [2%Q; 3%Q]] streaming in
  (min_recording_duration config <= 101 - AudioRecorder.start_time r)%Q
  /\ (AudioRecorder.stop_recording config 101%Q (Some (py "/tmp/x.wav")) r).1.1
     = Some (py "/tmp/x.wav")
  /\ WriteWav (py "/tmp/x.wav") 16000 [1%Q; 2%Q; 3%Q]
     ∈ (AudioRecorder.stop_recording config 101%Q (Some (py "/tmp/x.wav")) r).2.
Proof.
  intros r.
  assert (H0 : AudioRecorder.is_recording r = true) by reflexivity.
  assert (H1 : (min_recording_duration config
                <= 101 - AudioRecorder.start_time r)%Q)
    by (vm_compute; discriminate).
  assert (H2 : AudioRecorder.audio_data r <> []) by (vm_compute; discriminate).
  destruct (stop_recording_returns_file config 101%Q (Some (py "/tmp/x.wav"))
              (py "/tmp/x.wav") r) as [Hiff Hwrite].
  pose proof (proj2 Hiff (conj H0 (conj H1 (conj H2 eq_refl)))) as Hsome.
  exact (conj H1 (conj Hsome (Hwrite Hsome))).
Defined.

Lemma unused_model_survives_checks_witness :
  let t := (Transcriber._ensure_model_loaded (Some (Transcriber.WhisperModel 1)) 2%Q
              Transcriber.init).2 in
  Transcriber.model Transcriber.init = None
  /\ ServiceTrace.unloader_checks [30%Q; 1000%Q; 100000%Q] t = t.
Proof.
  intros t.
  assert (H0 : Transcriber.model Transcriber.init = None) by reflexivity.
  assert (H1 : Transcriber.last_used Transcriber.init = 0%Q) by reflexivity.
  exact (conj H0 (unused_model_survives_checks [30%Q; 1000%Q; 100000%Q] 2%Q
                    (Transcriber.WhisperModel 1) Transcriber.init H0 H1)).
Defined.

Lemma used_model_survives_within_threshold_witness :
  (1290 - 1000 <= 300)%Q
  /\ Transcriber._model_unloader_check 1290%Q used_at_1000 = used_at_1000.
Proof.
  assert (H0 : Transcriber.is_model_loaded Transcriber.init = true
               \/ is_Some (Some (Transcriber.WhisperModel 1)))
    by (right; by eexists).
  assert (H1 : (1290 - 1000 <= 300)%Q) by (vm_compute; discriminate).
  pose proof (used_model_survives_within_threshold
                (Some (Transcriber.WhisperModel 1)) 2%Q 1000%Q
                (Some (py " hello ")) (py "/tmp/a.wav") 1290%Q
                Transcriber.init H0 H1) as Hthm.
  cbv zeta in Hthm. destruct Hthm as (_ & _ & Hkeep).
  exact (conj H1 Hkeep).
Defined.

Lemma transcribe_result_stripped_witness :
  let r := Transcriber.transcribe (Some (Transcriber.WhisperModel 1)) 2%Q 1000%Q
             (Some (py "  hello world ")) (py "/tmp/a.wav") Transcriber.init in
  r.1.1 = Some (py "hello world")
  /\ PyStr.strip (py "hello world") = py "hello world".
Proof.
  intros r.
  assert (H0 : r.1.1 = Some (py "hello world")) by (vm_compute; reflexivity).
  destruct (transcribe_result_stripped _ _ _ _ _ _ _ H0) as [_ Hs].
  exact (conj H0 Hs).
Defined.

Lemma clean_text_has_no_replaced_symbol_witness :
  (py "&", py "and") ∈ TextToSpeech.replacements
  /\ 38%N ∉ TextToSpeech._clean_text (py "salt & pepper").
Proof.
  assert (H0 : (py "&", py "and") ∈ TextToSpeech.replacements)
    by (unfold TextToSpeech.replacements; apply list_elem_of_here).
  assert (H1 : 38%N ∈ py "&") by (apply list_elem_of_here).
  exact (conj H0 (clean_text_has_no_replaced_symbol (py "salt & pepper")
                    (py "&") (py "and") 38%N H0 H1)).
Defined.

Example clean_text_url :
  TextToSpeech._clean_text (py "see https://www.example.com/a_b")
  = py "see https:slashslashexample.comslashab".
Proof. vm_compute. reflexivity. Qed.

Lemma stop_before_playback_witness :
  TextToSpeech.is_speaking generating = true
  /\ TextToSpeech.mixer_busy
       (TextToSpeech._play_audio_start (TextToSpeech.stop_speech generating).1)
     = false.
Proof.
  assert (H0 : TextToSpeech.is_speaking generating = true) by reflexivity.
  exact (conj H0 (proj2 (stop_before_playback generating H0))).
Defined.

Lemma selected_text_job_witness :
  let r := TextToSpeech.speak_selected_text (Some (py "Hello")) TextToSpeech.init in
  TextToSpeech.speech_jobs r.2 = [py "Hello"]
  /\ TextToSpeech.is_speaking TextToSpeech.init = false.
Proof.
  intros r.
  assert (H0 : TextToSpeech.speech_jobs r.2 = [py "Hello"])
    by (vm_compute; reflexivity).
  assert (H1 : TextToSpeech.speech_jobs r.2 <> [])
    by (rewrite H0; discriminate).
  destruct (selected_text_job (Some (py "Hello")) TextToSpeech.init) as [Hcond _].
  exact (conj H0 (proj2 (Hcond H1))).
Defined.

Lemma selected_text_stripped_witness :
  let r := SelectedText.get_selected_text None (Some (0%Z, py " some text  "))
             true (fun _ => None) in
  r.1 = Some (py "some text") /\ PyStr.strip (py "some text") = py "some text".
Proof.
  intros r.
  assert (H0 : r.1 = Some (py "some text")) by (vm_compute; reflexivity).
  destruct (selected_text_stripped _ _ _ _ _ H0) as [_ Hs].
  exact (conj H0 Hs).
Defined.

Lemma selection_equal_to_clipboard_missed_witness :
  SelectedText.xclip_selection (Some (1%Z, py "")) = None
  /\ (SelectedText.get_selected_text (Some (py "old")) (Some (1%Z, py "")) true
        (fun _ => Some (py "old"))).1 = None.
Proof.
  assert (H0 : SelectedText.xclip_selection (Some (1%Z, py "")) = None)
    by reflexivity.
  exact (conj H0 (selection_equal_to_clipboard_missed (Some (py "old"))
                    (Some (1%Z, py "")) true H0)).
Defined.

Lemma clipboard_restored_only_on_failure_witness :
  let found := SelectedText.get_selected_text (Some (py "old")) None true
                 (fun _ => Some (py "new")) in
  found = (Some (py "new"), [SelectedText.ClipboardCopy []])
  /\ ~ (SelectedText.ClipboardCopy (py "old") ∈ found.2).
Proof.
  intros found.
  assert (H0 : truthy (default [] (Some (py "old"))) = true) by reflexivity.
  assert (H1 : found = (Some (py "new"), [SelectedText.ClipboardCopy []]))
    by (vm_compute; reflexivity).
  split; [exact H1|]. intros Hin.
  pose proof (proj1 (clipboard_restored_only_on_failure (Some (py "old")) None true
                       (fun _ => Some (py "new")) H0) Hin) as Hnone.
  fold found in Hnone. rewrite H1 in Hnone. discriminate.
Defined.

Lemma process_audio_restores_flag_witness :
  Service.is_processing transcribing = true
  /\ Service._process_audio config None 0%Q 50%Q (Some (py "hi")) true
       (py "/tmp/b.wav") transcribing = (transcribing, []).
Proof.
  assert (H0 : Service.is_processing transcribing = true) by reflexivity.
  pose proof (process_audio_restores_flag config None 0%Q 50%Q (Some (py "hi")) true
                (py "/tmp/b.wav") transcribing) as Hthm.
  cbv zeta in Hthm. destruct Hthm as (_ & _ & _ & Hbusy).
  exact (conj H0 (Hbusy H0)).
Defined.

Lemma capture_cycle_hands_off_witness :
  let pressed := (Service._on_hotkey_press config true 100%Q running).1 in
  let captured :=
    ServiceTrace.with_recorder
      (fun r => AudioRecorder.stream_deliver_all [[1%Q]; [2%Q]]
                  (AudioRecorder._record_audio_open true r)) pressed in
  (min_recording_duration config <= 101 - 100)%Q
  /\ StartProcessingThread (py "/tmp/x.wav")
     ∈ (Service._on_hotkey_release config 101%Q (Some (py "/tmp/x.wav")) captured).2.
Proof.
  intros pressed captured.
  assert (H0 : Service.is_running running = true) by reflexivity.
  assert (H1 : Service.is_processing running = false) by reflexivity.
  assert (H2 : AudioRecorder.is_recording (Service.audio_recorder running) = false)
    by reflexivity.
  assert (H3 : [[1%Q]; [2%Q]] <> ([] : list (list Q))) by discriminate.
  assert (H4 : truthy (py "/tmp/x.wav") = true) by reflexivity.
  assert (H5 : (min_recording_duration config <= 101 - 100)%Q)
    by (vm_compute; discriminate).
  pose proof (capture_cycle_hands_off config 100%Q 101%Q [[1%Q]; [2%Q]]
                (py "/tmp/x.wav") running H0 H1 H2 H3 H4 H5) as Hthm.
  cbv zeta in Hthm. destruct Hthm as (_ & Hjob & _).
  exact (conj H5 Hjob).
Defined.

Lemma failed_stream_release_ignored_witness :
  let pressed := Service._on_hotkey_press config true 100%Q running in
  let failed :=
    ServiceTrace.with_recorder (AudioRecorder._record_audio_open false) pressed.1 in
  Service.is_running running = true
  /\ TraySetRecording true ∈ pressed.2
  /\ Service._on_hotkey_release config 103%Q (Some (py "/tmp/x.wav")) failed
     = (failed, []).
Proof.
  intros pressed failed.
  assert (H0 : Service.is_running running = true) by reflexivity.
  assert (H1 : Service.is_processing running = false) by reflexivity.
  assert (H2 : AudioRecorder.is_recording (Service.audio_recorder running) = false)
    by reflexivity.
  pose proof (failed_stream_release_ignored config 100%Q 103%Q
                (Some (py "/tmp/x.wav")) running H0 H1 H2) as Hthm.
  cbv zeta in Hthm. destruct Hthm as [Htray Hrel].
  exact (conj H0 (conj (Htray eq_refl) Hrel)).
Defined.

End FurtherExamples.
